(** * DHT single-wire sensor driver (src/mgos_dht.c)

    A shallow embedding of the driver: the busy-wait primitive [dht_wait],
    the read routine [dht_read] (rate limit, start signal, handshake,
    capture of 80 pulse widths, bit decoding, checksum, statistics) and the
    two conversions [mgos_dht_get_temp] and [mgos_dht_get_humidity].

    The platform layer (GPIO, sleeps, interrupt mask, wall clock) is outside
    the file; it is modelled by a [World] that answers pin polls and clock
    queries from arbitrary oracles and records every call in a trace. *)

From Stdlib Require Import ZArith NArith QArith Qabs Bool Lia SpecFloat.
From stdpp Require Import base list.

Local Open Scope Z_scope.

(** ** C numeric types *)

Module CNum.

(** [uint8_t] and [uint32_t] stores keep the low bits. *)
Definition u8 (z : Z) : Z := z mod 256.
Definition u32 (z : Z) : Z := z mod 2 ^ 32.

(** IEEE binary32 ([float]) and binary64 ([double]) on [spec_float]. *)
Definition f32_prec : Z := 24.
Definition f32_emax : Z := 128.
Definition f64_prec : Z := 53.
Definition f64_emax : Z := 1024.

Definition f32_of_int (z : Z) : spec_float :=
  binary_normalize f32_prec f32_emax z 0 false.
Definition f64_of_int (z : Z) : spec_float :=
  binary_normalize f64_prec f64_emax z 0 false.

(** Conversion between formats, round to nearest even. *)
Definition f64_of_f32 (x : spec_float) : spec_float :=
  match x with
  | S754_finite s m e => binary_round f64_prec f64_emax s m e
  | _ => x
  end.
Definition f32_of_f64 (x : spec_float) : spec_float :=
  match x with
  | S754_finite s m e => binary_round f32_prec f32_emax s m e
  | _ => x
  end.

Definition f32_mul := SFmul f32_prec f32_emax.
Definition f32_add := SFadd f32_prec f32_emax.
Definition f32_div := SFdiv f32_prec f32_emax.
Definition f64_mul := SFmul f64_prec f64_emax.
Definition f64_add := SFadd f64_prec f64_emax.
Definition f64_sub := SFsub f64_prec f64_emax.
Definition f64_div := SFdiv f64_prec f64_emax.

(** The [double] literal [0.1]: the binary64 nearest to 1/10. *)
Definition f64_0_1 : spec_float :=
  Eval vm_compute in f64_div (f64_of_int 1) (f64_of_int 10).

Definition NAN : spec_float := S754_nan.

(** Structural equality test on floats. *)
Definition sf_eqb (a b : spec_float) : bool :=
  match a, b with
  | S754_zero s, S754_zero t => Bool.eqb s t
  | S754_infinity s, S754_infinity t => Bool.eqb s t
  | S754_nan, S754_nan => true
  | S754_finite s m e, S754_finite t n f =>
      Bool.eqb s t && Pos.eqb m n && Z.eqb e f
  | _, _ => false
  end.

(** The rational a finite float stands for. *)
Definition pow2Q (e : Z) : Q :=
  match e with
  | Z0 => 1%Q
  | Zpos p => inject_Z (2 ^ Zpos p)
  | Zneg p => (1 # Pos.pow 2 p)%Q
  end.

Definition sf_value (x : spec_float) : option Q :=
  match x with
  | S754_zero _ => Some 0%Q
  | S754_finite s m e =>
      Some ((inject_Z (if s then Zneg m else Zpos m)) * pow2Q e)%Q
  | _ => None
  end.

Definition sf_negative (x : spec_float) : bool :=
  match x with
  | S754_zero s | S754_infinity s | S754_finite s _ _ => s
  | S754_nan => false
  end.

End CNum.
Import CNum.

(** ** The platform: GPIO, sleeps, interrupt mask, clock *)

Inductive gpio_mode := MGOS_GPIO_MODE_INPUT | MGOS_GPIO_MODE_OUTPUT.
Inductive gpio_pull := MGOS_GPIO_PULL_NONE | MGOS_GPIO_PULL_UP | MGOS_GPIO_PULL_DOWN.

Inductive event :=
| EvSetMode (pin : Z) (m : gpio_mode)
| EvSetPull (pin : Z) (p : gpio_pull)
| EvWrite (pin : Z) (lvl : Z)
| EvRead (pin : Z) (lvl : bool)
| EvUsleep (us : Z)
| EvMsleep (ms : Z)
| EvIntsDisable
| EvIntsEnable
| EvTime (t : spec_float).

(** [pin_level p k] is what the [k]-th poll of the run sees on pin [p];
    [clock k] is what the [k]-th clock query returns.  [gpio_ok p] is
    whether the platform accepts a mode for pin [p], [pull_ok p] whether it
    accepts a pull setting for it.  All four are arbitrary, and independent
    of each other.  [trace] lists the platform calls, most recent first. *)
Record World := mkWorld {
  pin_level : Z -> nat -> bool;
  polls : nat;
  clock : nat -> spec_float;
  clock_reads : nat;
  gpio_ok : Z -> bool;
  pull_ok : Z -> bool;
  ints_enabled : bool;
  trace : list event
}.

Definition M (A : Type) : Type := World -> A * World.

Definition ret {A} (a : A) : M A := fun w => (a, w).
Definition bind {A B} (m : M A) (k : A -> M B) : M B :=
  fun w => let r := m w in k (fst r) (snd r).

Notation "x <- m ;; k" := (bind m (fun x => k))
  (at level 100, m at next level, k at level 200, right associativity).
Notation "m ;;; k" := (bind m (fun _ => k))
  (at level 100, k at level 200, right associativity).

Definition emit (e : event) (w : World) : World :=
  mkWorld (pin_level w) (polls w) (clock w) (clock_reads w) (gpio_ok w)
          (pull_ok w) (ints_enabled w) (e :: trace w).

Definition mg_time : M spec_float := fun w =>
  let t := clock w (clock_reads w) in
  (t, mkWorld (pin_level w) (polls w) (clock w) (S (clock_reads w)) (gpio_ok w)
              (pull_ok w) (ints_enabled w) (EvTime t :: trace w)).

Definition mgos_gpio_read (pin : Z) : M bool := fun w =>
  let v := pin_level w pin (polls w) in
  (v, mkWorld (pin_level w) (S (polls w)) (clock w) (clock_reads w) (gpio_ok w)
              (pull_ok w) (ints_enabled w) (EvRead pin v :: trace w)).

Definition mgos_gpio_write (pin : Z) (lvl : Z) : M unit := fun w =>
  (tt, emit (EvWrite pin lvl) w).

Definition mgos_gpio_set_mode (pin : Z) (m : gpio_mode) : M bool := fun w =>
  (gpio_ok w pin, emit (EvSetMode pin m) w).

Definition mgos_gpio_set_pull (pin : Z) (p : gpio_pull) : M bool := fun w =>
  (pull_ok w pin, emit (EvSetPull pin p) w).

Definition mgos_usleep (us : Z) : M unit := fun w => (tt, emit (EvUsleep us) w).
Definition mgos_msleep (ms : Z) : M unit := fun w => (tt, emit (EvMsleep ms) w).

Definition set_ints (b : bool) (e : event) (w : World) : World :=
  mkWorld (pin_level w) (polls w) (clock w) (clock_reads w) (gpio_ok w)
          (pull_ok w) b (e :: trace w).

Definition mgos_ints_disable : M unit := fun w => (tt, set_ints false EvIntsDisable w).
Definition mgos_ints_enable : M unit := fun w => (tt, set_ints true EvIntsEnable w).

(** ** The handle *)

(** Modelled from the spec: [enum dht_type] is declared in mgos_dht.h, which
    is not part of the sources.  The spec names a DHT11-style variant, the
    higher-precision variants (DHT21, DHT22) and a short-initiation one; the
    code tests only for [DHT11] and [ITEAD_SI7021]. *)
Inductive dht_type := DHT11 | DHT21 | DHT22 | ITEAD_SI7021.

Definition is_DHT11 (t : dht_type) : bool :=
  match t with DHT11 => true | _ => false end.
Definition is_ITEAD_SI7021 (t : dht_type) : bool :=
  match t with ITEAD_SI7021 => true | _ => false end.

(** Modelled from the spec: [struct mgos_dht_stats] is declared in
    mgos_dht.h, which is not part of the sources.  The spec lists its
    fields: total read attempts, successful reads, reads served from cache,
    cumulative microseconds spent on successful reads, and the timestamp of
    the last read attempt; the counters accumulate monotonically, so they
    are natural numbers here.  The two time fields hold what the code
    stores in them, values of type [double]. *)
Record mgos_dht_stats := mkStats {
  last_read_time : spec_float;
  read : N;
  read_success : N;
  read_success_cached : N;
  read_success_usecs : spec_float
}.

Record mgos_dht := mkDht {
  pin : Z;
  type : dht_type;
  data : list Z;          (* uint8_t data[5] *)
  last_result : bool;
  stats : mgos_dht_stats
}.

Definition MGOS_DHT_READ_DELAY : Z := 2.

(** ** dht_wait (lines 43-54) *)

(** One pass of the [while] per unit of [fuel]; [t] is the loop variable.
    The loop leaves when the pin shows [lvl], or with [t = 0] when
    [t == usecs]. *)
Fixpoint dht_wait_loop (fuel : nat) (pin lvl usecs t : Z) : M Z :=
  match fuel with
  | O => ret t
  | S fuel' =>
      v <- mgos_gpio_read pin ;;
      if negb (Z.b2z v =? lvl) then
        if t =? usecs then ret 0
        else
          mgos_usleep 1 ;;;
          dht_wait_loop fuel' pin lvl usecs (u32 (t + 1))
      else ret t
  end.

(** [usecs + 1] passes always suffice (see [dht_wait_loop_fuel]). *)
Definition dht_wait (pin lvl usecs : Z) : M Z :=
  dht_wait_loop (S (Z.to_nat usecs)) pin lvl usecs 0.

(** ** dht_read (lines 56-134) *)

Definition zero_data : list Z := [0; 0; 0; 0; 0].

(** Lines 60-62: the rate-limit test on the start time. *)
Definition rate_limited (dht : mgos_dht) (start : spec_float) : bool :=
  SFltb (f64_sub start (last_read_time (stats dht)))
        (f64_of_int MGOS_DHT_READ_DELAY).

(** Lines 70-91: start signal and entry into the critical section. *)
Definition dht_start_signal (dht : mgos_dht) : M unit :=
  mgos_gpio_set_mode (pin dht) MGOS_GPIO_MODE_INPUT ;;;
  mgos_gpio_set_pull (pin dht) MGOS_GPIO_PULL_UP ;;;
  mgos_msleep 10 ;;;
  mgos_gpio_set_mode (pin dht) MGOS_GPIO_MODE_OUTPUT ;;;
  mgos_gpio_write (pin dht) 0 ;;;
  (if is_ITEAD_SI7021 (type dht) then mgos_usleep 500 else mgos_msleep 18) ;;;
  mgos_ints_disable ;;;
  mgos_gpio_set_mode (pin dht) MGOS_GPIO_MODE_INPUT ;;;
  mgos_gpio_set_pull (pin dht) MGOS_GPIO_PULL_UP ;;;
  mgos_usleep 40.

(** Line 95: [!dht_wait(pin, 1, 90) || !dht_wait(pin, 0, 90)], negated:
    [true] when both waits return a nonzero duration.  The second wait runs
    only when the first one succeeded. *)
Definition dht_handshake (pin : Z) : M bool :=
  a <- dht_wait pin 1 90 ;;
  if a =? 0 then ret false
  else
    b <- dht_wait pin 0 90 ;;
    ret (negb (b =? 0)).

(** Lines 102-105: [n] passes of the capture loop; the array [cycles] is
    filled from index 0 upwards, two slots per pass. *)
Fixpoint dht_capture (n : nat) (pin : Z) : M (list Z) :=
  match n with
  | O => ret []
  | S n' =>
      lo <- dht_wait pin 1 500 ;;
      hi <- dht_wait pin 0 500 ;;
      rest <- dht_capture n' pin ;;
      ret (lo :: hi :: rest)
  end.

(** Lines 111-124: the decode loop from bit-slot [i], [n] slots to go.
    Returns [false] with the buffer as it stands when a slot holds 0. *)
Fixpoint dht_decode_from (n i : nat) (cycles : list Z) (data : list Z)
  : bool * list Z :=
  match n with
  | O => (true, data)
  | S n' =>
      let usec_low := cycles !!! (2 * i)%nat in
      let usec_high := cycles !!! (2 * i + 1)%nat in
      if (usec_low =? 0) || (usec_high =? 0) then (false, data)
      else
        let j := (i / 8)%nat in
        let data := <[j := u8 (Z.shiftl (data !!! j) 1)]> data in
        let data :=
          if usec_low <? usec_high
          then <[j := u8 (Z.lor (data !!! j) 1)]> data
          else data in
        dht_decode_from n' (S i) cycles data
  end.

Definition dht_decode (cycles : list Z) (data : list Z) : bool * list Z :=
  dht_decode_from 40 0 cycles data.

(** Lines 126-127. *)
Definition checksum_ok (data : list Z) : bool :=
  data !!! 4%nat =?
  Z.land (data !!! 0%nat + data !!! 1%nat + data !!! 2%nat + data !!! 3%nat) 255.

Definition stats_read_incr (s : mgos_dht_stats) : mgos_dht_stats :=
  mkStats (last_read_time s) (read s + 1) (read_success s)
          (read_success_cached s) (read_success_usecs s).
Definition stats_cached_incr (s : mgos_dht_stats) : mgos_dht_stats :=
  mkStats (last_read_time s) (read s) (read_success s)
          (read_success_cached s + 1) (read_success_usecs s).
Definition stats_set_time (t : spec_float) (s : mgos_dht_stats) : mgos_dht_stats :=
  mkStats t (read s) (read_success s) (read_success_cached s)
          (read_success_usecs s).
(** Lines 129-131. *)
Definition stats_success (start now : spec_float) (s : mgos_dht_stats)
  : mgos_dht_stats :=
  mkStats start (read s) (read_success s + 1) (read_success_cached s)
          (f64_add (read_success_usecs s)
                   (f64_mul (f64_of_int 1000000) (f64_sub now start))).

Definition with_stats (s : mgos_dht_stats) (d : mgos_dht) : mgos_dht :=
  mkDht (pin d) (type d) (data d) (last_result d) s.
Definition with_data (l : list Z) (d : mgos_dht) : mgos_dht :=
  mkDht (pin d) (type d) l (last_result d) (stats d).
Definition with_result (b : bool) (d : mgos_dht) : mgos_dht :=
  mkDht (pin d) (type d) (data d) b (stats d).

(** Lines 66-68: what a fresh attempt does to the handle before it touches
    the bus. *)
Definition dht_reset (start : spec_float) (dht : mgos_dht) : mgos_dht :=
  with_data zero_data
    (with_result false (with_stats (stats_set_time start (stats dht)) dht)).

(** [dht_read] on a valid handle (the body after the NULL test of line 59).
    Returns the result and the handle as the call leaves it. *)
Definition dht_read (dht : mgos_dht) : M (bool * mgos_dht) :=
  start <- mg_time ;;
  let dht := with_stats (stats_read_incr (stats dht)) dht in
  if rate_limited dht start then
    let dht := with_stats (stats_cached_incr (stats dht)) dht in
    ret (last_result dht, dht)
  else
    let dht := dht_reset start dht in
    dht_start_signal dht ;;;
    ack <- dht_handshake (pin dht) ;;
    if negb ack then
      mgos_ints_enable ;;;
      ret (false, dht)
    else
      cycles <- dht_capture 40 (pin dht) ;;
      mgos_ints_enable ;;;
      let dec := dht_decode cycles (data dht) in
      let dht := with_data (snd dec) dht in
      if negb (fst dec) then ret (false, dht)
      else if checksum_ok (data dht) then
        now <- mg_time ;;
        let dht := with_result true dht in
        let dht := with_stats (stats_success start now (stats dht)) dht in
        ret (last_result dht, dht)
      else ret (last_result dht, dht).

(** [dht_read] on a pointer: line 59 returns [false] for NULL and touches
    nothing. *)
Definition dht_read_ptr (p : option mgos_dht) : M (bool * option mgos_dht) :=
  match p with
  | None => ret (false, None)
  | Some dht => r <- dht_read dht ;; ret (fst r, Some (snd r))
  end.

(** ** The conversions (lines 155-186) *)

(** Lines 159-167, on the handle [dht_read] left behind.  [res *= 0.1]
    multiplies in [double] and stores the product back into the [float]. *)
Definition temp_of (dht : mgos_dht) : spec_float :=
  if is_DHT11 (type dht) then f32_of_int (data dht !!! 2%nat)
  else
    let res := f32_of_int (Z.land (data dht !!! 2%nat) 0x7F) in
    let res := f32_mul res (f32_of_int 256) in
    let res := f32_add res (f32_of_int (data dht !!! 3%nat)) in
    let res := f32_of_f64 (f64_mul (f64_of_f32 res) f64_0_1) in
    if negb (Z.land (data dht !!! 2%nat) 0x80 =? 0)
    then f32_mul res (f32_of_int (-1))
    else res.

(** Lines 176-183. *)
Definition humidity_of (dht : mgos_dht) : spec_float :=
  if is_DHT11 (type dht) then f32_of_int (data dht !!! 0%nat)
  else
    let res := f32_of_int (data dht !!! 0%nat) in
    let res := f32_mul res (f32_of_int 256) in
    let res := f32_add res (f32_of_int (data dht !!! 1%nat)) in
    f32_of_f64 (f64_mul (f64_of_f32 res) f64_0_1).

Definition mgos_dht_get_temp (p : option mgos_dht)
  : M (spec_float * option mgos_dht) :=
  r <- dht_read_ptr p ;;
  ret (match snd r with
       | Some dht => if fst r then temp_of dht else NAN
       | None => NAN
       end, snd r).

Definition mgos_dht_get_humidity (p : option mgos_dht)
  : M (spec_float * option mgos_dht) :=
  r <- dht_read_ptr p ;;
  ret (match snd r with
       | Some dht => if fst r then humidity_of dht else NAN
       | None => NAN
       end, snd r).

(** ** Vocabulary for the statements *)

(** The C type of the buffer: five bytes. *)
Definition dht_wf (dht : mgos_dht) : Prop :=
  length (data dht) = 5%nat /\ Forall (fun b => 0 <= b < 256) (data dht).

(** Whether a call made in world [w] is served from the cache: the test of
    line 62 on the time the call reads first. *)
Definition cache_hit (dht : mgos_dht) (w : World) : bool :=
  rate_limited dht (clock w (clock_reads w)).

(** On a fresh attempt: the handle after lines 61-68, the world in which the
    handshake starts, its outcome, and the 80 durations captured after it. *)
Definition attempt_handle (dht : mgos_dht) (w : World) : mgos_dht :=
  dht_reset (clock w (clock_reads w))
            (with_stats (stats_read_incr (stats dht)) dht).
Definition handshake_world (dht : mgos_dht) (w : World) : World :=
  snd (dht_start_signal (attempt_handle dht w) (snd (mg_time w))).
Definition handshake_ok (dht : mgos_dht) (w : World) : bool :=
  fst (dht_handshake (pin dht) (handshake_world dht w)).
Definition capture_world (dht : mgos_dht) (w : World) : World :=
  snd (dht_handshake (pin dht) (handshake_world dht w)).
Definition captured (dht : mgos_dht) (w : World) : list Z :=
  fst (dht_capture 40 (pin dht) (capture_world dht w)).

(** The bit of slot [i]: high phase longer than low phase. *)
Definition slot_bit (cycles : list Z) (i : nat) : bool :=
  cycles !!! (2 * i)%nat <? cycles !!! (2 * i + 1)%nat.

(** Shifting one bit into a byte from the right. *)
Definition push_bit (x : Z) (b : bool) : Z := u8 (2 * x + Z.b2z b).

(** Shifting in the bits of slots [lo], [lo+1], ..., [lo+cnt-1], in order. *)
Fixpoint push_bits (cycles : list Z) (x : Z) (lo cnt : nat) : Z :=
  match cnt with
  | O => x
  | S c => push_bits cycles (push_bit x (slot_bit cycles lo)) (S lo) c
  end.

(** The events of a call: what [w'] has on top of [w]. *)
Definition extends (w w' : World) (evs : list event) : Prop :=
  trace w' = evs ++ trace w.

Definition is_ints_event (e : event) : bool :=
  match e with EvIntsDisable | EvIntsEnable => true | _ => false end.

(** The latest interrupt-mask event among [evs] (most recent first). *)
Definition last_ints_event (evs : list event) : option event :=
  List.find is_ints_event evs.

Definition is_gpio_event (e : event) : bool :=
  match e with
  | EvSetMode _ _ | EvSetPull _ _ | EvWrite _ _ | EvRead _ _ => true
  | _ => false
  end.

(** The readings as the spec words them: the byte itself for the
    DHT11-style variant, otherwise the 16-bit (15-bit and sign) quantity
    times 0.1, as the binary32 nearest to the exact tenth. *)
Definition temp_exact (b2 b3 : Z) : Q :=
  let mag := ((Z.land b2 0x7F * 256 + b3) # 10)%Q in
  if Z.testbit b2 7 then (- mag)%Q else mag.
Definition temp_spec (t : dht_type) (b2 b3 : Z) : spec_float :=
  if is_DHT11 t then f32_of_int b2
  else
    let mag := f32_div (f32_of_int (Z.land b2 0x7F * 256 + b3)) (f32_of_int 10) in
    if Z.testbit b2 7 then SFopp mag else mag.
Definition humidity_exact (b0 b1 : Z) : Q := ((b0 * 256 + b1) # 10)%Q.
Definition humidity_spec (t : dht_type) (b0 b1 : Z) : spec_float :=
  if is_DHT11 t then f32_of_int b0
  else f32_div (f32_of_int (b0 * 256 + b1)) (f32_of_int 10).

(** Exhaustive tests over one byte and over two bytes. *)
Definition byte_range : list Z := List.map Z.of_nat (seq 0 256).
Definition all_bytes (P : Z -> bool) : bool := forallb P byte_range.
Definition all_byte_pairs (P : Z -> Z -> bool) : bool :=
  all_bytes (fun hi => all_bytes (fun lo => P hi lo)).

(** [|v - x| <= |x| * 2^-24]: [v] is [x] up to half a unit in the last
    place of binary32. *)
Definition near32 (v : option Q) (x : Q) : bool :=
  match v with
  | Some q => Qle_bool (Qabs (q - x) * inject_Z (2 ^ 24)) (Qabs x)
  | None => false
  end.

(** ** Sequences of calls *)

Inductive call_kind := CacheHit | FreshSuccess | FreshFailure.

Definition kind_of (dht : mgos_dht) (w : World) : call_kind :=
  if cache_hit dht w then CacheHit
  else if fst (fst (dht_read dht w)) then FreshSuccess
  else FreshFailure.

(** The handle after one call per world of [ws]; each world is the state of
    the platform when that call starts. *)
Fixpoint dht_read_seq (dht : mgos_dht) (ws : list World) : mgos_dht :=
  match ws with
  | [] => dht
  | w :: ws' => dht_read_seq (snd (fst (dht_read dht w))) ws'
  end.

Fixpoint kinds_of (dht : mgos_dht) (ws : list World) : list call_kind :=
  match ws with
  | [] => []
  | w :: ws' => kind_of dht w :: kinds_of (snd (fst (dht_read dht w))) ws'
  end.

Definition is_hit (k : call_kind) : bool :=
  match k with CacheHit => true | _ => false end.
Definition is_success (k : call_kind) : bool :=
  match k with FreshSuccess => true | _ => false end.

Definition count_kind (f : call_kind -> bool) (ks : list call_kind) : N :=
  N.of_nat (length (List.filter f ks)).

(** The two readings behind one name, for statements about either. *)
Inductive quantity := Temperature | Humidity.

Definition mgos_dht_get (q : quantity) (p : option mgos_dht)
  : M (spec_float * option mgos_dht) :=
  match q with
  | Temperature => mgos_dht_get_temp p
  | Humidity => mgos_dht_get_humidity p
  end.

Definition reading_of (q : quantity) (dht : mgos_dht) : spec_float :=
  match q with
  | Temperature => temp_of dht
  | Humidity => humidity_of dht
  end.

Definition hit_incr (b : bool) : N := if b then 1%N else 0%N.

(** ** Test benches *)

(** The eight bits of a byte, most significant first. *)
Definition byte_bits (b : Z) : list bool :=
  List.map (fun n => Z.testbit b (Z.of_nat (7 - n))) (seq 0 8).

(** What successive polls see while the sensor sends one bit: low, then
    high for longer (1) or for shorter (0) than the low phase, up to the
    first low poll of the next bit. *)
Definition bit_polls (b : bool) : list bool :=
  if b then [false; true; true; true; false]
  else [false; false; true; true; false].

(** A whole answer: acknowledgment (low, high, high, low), then 40 bits. *)
Definition frame_polls (bytes : list Z) : list bool :=
  [false; true; true; false] ++ flat_map bit_polls (flat_map byte_bits bytes).

(** A platform whose pins all show [levels] poll after poll (low once the
    list is used up) and whose clock returns [times] in turn. *)
Definition bench (levels : list bool) (times : list spec_float) : World :=
  mkWorld (fun _ k => nth k levels false) 0
          (fun k => nth k times (S754_zero false)) 0
          (fun _ => true) (fun _ => true) true [].

Definition zero_stats : mgos_dht_stats :=
  mkStats (S754_zero false) 0 0 0 (S754_zero false).

Definition secs (n : Z) : spec_float := f64_of_int n.

Definition dht11_bytes : list Z := [0x32; 0x00; 0x19; 0x00; 0x4B].
Definition dht22_bytes : list Z := [0x02; 0x8C; 0x80; 0x19; 0x27].
Definition bad_sum_bytes : list Z := [0x32; 0x00; 0x19; 0x00; 0x4C].

Definition new_dht11 : mgos_dht := mkDht 4 DHT11 zero_data false zero_stats.
Definition new_dht22 : mgos_dht := mkDht 4 DHT22 zero_data false zero_stats.

(** A handle that holds a good reading taken at second 10. *)
Definition used_dht22 : mgos_dht :=
  mkDht 4 DHT22 dht22_bytes true
        (mkStats (secs 10) 1 1 0 (S754_zero false)).

(** Platforms: a sensor that answers with a frame at second 10 (and a
    second query of the clock at second 11), and a dead line at second 20. *)
Definition answering (bytes : list Z) : World :=
  bench (frame_polls bytes) [secs 10; secs 10; secs 11].
Definition dead_line : World := bench [] [secs 20].
Definition stuck_high : World := bench (replicate 200 true) [secs 20].

(** 80 durations in which every high phase is longer, resp. not longer,
    than its low phase, and one with a timeout in the last slot. *)
Definition cycles_ones : list Z := flat_map (fun _ => [50; 70]) (seq 0 40).
Definition cycles_zeros : list Z := flat_map (fun _ => [50; 30]) (seq 0 40).
Definition cycles_late_timeout : list Z :=
  flat_map (fun _ => [50; 70]) (seq 0 39) ++ [50; 0].

(** A sensor that acknowledges and sends 39 bits, after which the line
    stays high: the last high phase never ends. *)
Definition stuck_in_last_bit : World :=
  bench (take 203 (frame_polls dht22_bytes) ++ replicate 600 true) [secs 10].

(** A handle holding given bytes, to run the conversions on. *)
Definition probe (t : dht_type) (b0 b1 b2 b3 : Z) : mgos_dht :=
  mkDht 0 t [b0; b1; b2; b3; 0] true zero_stats.

(** The conversions against the spec's formulas, byte by byte. *)
Definition int_check (b : Z) : bool :=
  match sf_value (f32_of_int b) with
  | Some v => Qeq_bool v (inject_Z b)
  | None => false
  end.
Definition temp_check (b2 b3 : Z) : bool :=
  let t := temp_of (probe DHT22 0 0 b2 b3) in
  sf_eqb t (temp_spec DHT22 b2 b3)
  && near32 (sf_value t) (temp_exact b2 b3)
  && Bool.eqb (sf_negative t) (Z.testbit b2 7).
Definition humidity_check (b0 b1 : Z) : bool :=
  let h := humidity_of (probe DHT22 b0 b1 0 0) in
  sf_eqb h (humidity_spec DHT22 b0 b1)
  && near32 (sf_value h) (humidity_exact b0 b1).

(** ** mgos_dht_create, mgos_dht_getStats, mgos_dht_init (lines 136-198) *)

(** What [calloc] and [memset] leave, with pin and variant filled in. *)
Definition blank_dht (p : Z) (t : dht_type) : mgos_dht :=
  mkDht p t zero_data false zero_stats.

(** Lines 136-148.  [calloc_ok] tells whether the allocation of line 137
    succeeds.  The pull-up is configured only when setting the mode
    succeeded; when either fails the handle is released and NULL returned. *)
Definition mgos_dht_create (calloc_ok : bool) (p : Z) (t : dht_type)
  : M (option mgos_dht) :=
  if negb calloc_ok then ret None
  else
    let dht := blank_dht p t in
    ok_mode <- mgos_gpio_set_mode (pin dht) MGOS_GPIO_MODE_INPUT ;;
    if negb ok_mode then ret None
    else
      ok_pull <- mgos_gpio_set_pull (pin dht) MGOS_GPIO_PULL_UP ;;
      if negb ok_pull then ret None else ret (Some dht).

(** Lines 188-194: the result and the contents of [*stats] afterwards. *)
Definition mgos_dht_getStats (dht : option mgos_dht)
           (out : option mgos_dht_stats) : bool * option mgos_dht_stats :=
  match dht, out with
  | Some d, Some _ => (true, Some (stats d))
  | _, _ => (false, out)
  end.

(** Lines 196-198. *)
Definition mgos_dht_init : bool := true.

(** ** More vocabulary *)

(** The events of a busy wait on pin [p]: a poll of [p], a sleep of 1 us. *)
Definition is_poll_event (p : Z) (e : event) : bool :=
  match e with
  | EvRead q _ => q =? p
  | EvUsleep us => us =? 1
  | _ => false
  end.

(** The events a read of the sensor on pin [p] may cause: GPIO calls on
    [p] only, and no write other than of level 0. *)
Definition own_pin_event (p : Z) (e : event) : bool :=
  match e with
  | EvSetMode q _ | EvSetPull q _ | EvRead q _ => q =? p
  | EvWrite q lvl => (q =? p) && (lvl =? 0)
  | _ => true
  end.

(** A handle after one rate-limited call: two counters up by one. *)
Definition counted_hit (d : mgos_dht) : mgos_dht :=
  with_stats (stats_cached_incr (stats_read_incr (stats d))) d.

(** Successes and cache hits never outnumber the attempts. *)
Definition stats_consistent (s : mgos_dht_stats) : Prop :=
  (read_success s + read_success_cached s <= read s)%N.

(** The pulse widths a sensor sends for five bytes: per bit a low phase of
    [low], then a high phase of [long] for 1 and of [short] for 0. *)
Definition dht_encode (low short long : Z) (bytes : list Z) : list Z :=
  flat_map (fun b : bool => [low; if b then long else short])
           (flat_map byte_bits bytes).

(** The most polls one read can make: two waits of 90 us and eighty of
    500 us, each polling once more than it sleeps. *)
Definition max_polls : nat := 2 * 91 + 80 * 501.

(** [w'] comes from [w] by at most [n] polls of pin [p] and 1 us sleeps,
    and nothing else. *)
Definition polling (p : Z) (n : nat) (w w' : World) : Prop :=
  pin_level w' = pin_level w /\ clock w' = clock w /\
  clock_reads w' = clock_reads w /\ gpio_ok w' = gpio_ok w /\
  ints_enabled w' = ints_enabled w /\
  (polls w <= polls w' <= polls w + n)%nat /\
  exists evs, extends w w' evs /\ forallb (is_poll_event p) evs = true.

Definition is_failure (k : call_kind) : bool :=
  match k with FreshFailure => true | _ => false end.

(** More platforms: the clock one second after the dead line of second 20,
    and a board that has been up for one second. *)
Definition a_second_later : World := bench [] [secs 21].
Definition just_booted : World := bench [] [secs 1; secs 1].
Definition eleventh_second : World := bench [] [secs 11].
Definition rises_after_two : World := bench [false; false; true] [secs 10].

(** A handle whose flag, when set, vouches for a checksummed buffer. *)
Definition validated (d : mgos_dht) : Prop :=
  last_result d = true -> checksum_ok (data d) = true.

(** ** dht_wait: fuel, bound, zero results *)

Lemma u32_small z : 0 <= z < 2 ^ 32 -> u32 z = z.
Proof. intros H. unfold u32. apply Z.mod_small. exact H. Qed.

(** One pass of the loop, spelled out on the world. *)
Lemma dht_wait_loop_step fuel p lvl usecs t w :
  dht_wait_loop (S fuel) p lvl usecs t w =
  let w1 := snd (mgos_gpio_read p w) in
  if negb (Z.b2z (pin_level w p (polls w)) =? lvl) then
    if t =? usecs then (0, w1)
    else dht_wait_loop fuel p lvl usecs (u32 (t + 1)) (snd (mgos_usleep 1 w1))
  else (t, w1).
Proof.
  cbn [dht_wait_loop]. unfold bind. cbn [fst snd mgos_gpio_read].
  destruct (negb _); [destruct (t =? usecs)|]; reflexivity.
Qed.

(** Fuel beyond [usecs - t + 1] passes is never used. *)
Lemma dht_wait_loop_fuel fuel p lvl usecs : forall t w,
  0 <= t <= usecs -> usecs < 2 ^ 32 ->
  (Z.to_nat (usecs - t) < fuel)%nat ->
  dht_wait_loop fuel p lvl usecs t w =
  dht_wait_loop (S (Z.to_nat (usecs - t))) p lvl usecs t w.
Proof.
  induction fuel as [|fuel IH]; intros t w Ht Hu Hf; [lia|].
  rewrite !dht_wait_loop_step. cbv zeta.
  destruct (negb _); [|reflexivity].
  destruct (t =? usecs) eqn:E; [reflexivity|].
  apply Z.eqb_neq in E.
  rewrite u32_small by lia.
  rewrite IH by lia.
  replace (Z.to_nat (usecs - t)) with (S (Z.to_nat (usecs - (t + 1)))) by lia.
  reflexivity.
Qed.

(** What the loop returns, by the first poll at which the pin shows [lvl]. *)
Lemma dht_wait_loop_result fuel p lvl usecs : forall t w,
  0 <= t <= usecs -> usecs < 2 ^ 32 ->
  (Z.to_nat (usecs - t) < fuel)%nat ->
  let r := dht_wait_loop fuel p lvl usecs t w in
  (exists k : nat,
      (k <= Z.to_nat (usecs - t))%nat /\
      (forall i, (i < k)%nat -> Z.b2z (pin_level w p (polls w + i)) <> lvl) /\
      Z.b2z (pin_level w p (polls w + k)) = lvl /\
      fst r = t + Z.of_nat k /\ polls (snd r) = (polls w + k + 1)%nat)
  \/
  ((forall i, (i <= Z.to_nat (usecs - t))%nat ->
      Z.b2z (pin_level w p (polls w + i)) <> lvl) /\
   fst r = 0 /\ polls (snd r) = (polls w + Z.to_nat (usecs - t) + 1)%nat).
Proof.
  induction fuel as [|fuel IH]; intros t w Ht Hu Hf; [lia|].
  cbv zeta. rewrite dht_wait_loop_step. cbv zeta.
  destruct (Z.b2z (pin_level w p (polls w)) =? lvl) eqn:E0; cbn [negb].
  - apply Z.eqb_eq in E0. left. exists 0%nat.
    rewrite Nat.add_0_r. cbn [fst snd mgos_gpio_read polls].
    repeat split; try lia; try assumption.
  - apply Z.eqb_neq in E0.
    destruct (t =? usecs) eqn:E.
    + apply Z.eqb_eq in E. subst t. right.
      replace (Z.to_nat (usecs - usecs)) with 0%nat by lia.
      cbn [fst snd mgos_gpio_read polls].
      split; [|split; [reflexivity | lia]].
      intros i Hi. replace i with 0%nat by lia. rewrite Nat.add_0_r. exact E0.
    + apply Z.eqb_neq in E. rewrite u32_small by lia.
      set (w2 := snd (mgos_usleep 1 (snd (mgos_gpio_read p w)))).
      assert (Hp : pin_level w2 = pin_level w) by reflexivity.
      assert (Hq : polls w2 = S (polls w)) by reflexivity.
      destruct (IH (t + 1) w2) as [(k & Hk & Hlt & Heq & Hr & Hpo)
                                  |(Hall & Hr & Hpo)]; try lia.
      * left. exists (S k). rewrite Hp, Hq in *.
        replace (polls w + S k)%nat with (S (polls w) + k)%nat by lia.
        repeat split; try lia; try assumption.
        intros i Hi. destruct i as [|i].
        -- rewrite Nat.add_0_r. exact E0.
        -- replace (polls w + S i)%nat with (S (polls w) + i)%nat by lia.
           apply Hlt. lia.
      * right. rewrite Hp, Hq in *.
        repeat split; try lia; try assumption.
        intros i Hi. destruct i as [|i].
        -- rewrite Nat.add_0_r. exact E0.
        -- replace (polls w + S i)%nat with (S (polls w) + i)%nat by lia.
           apply Hall. lia.
Qed.

(** ** The decode loop *)

Lemma shift_is_push x : u8 (Z.shiftl x 1) = push_bit x false.
Proof.
  unfold push_bit. cbn [Z.b2z]. rewrite Z.shiftl_mul_pow2 by lia.
  f_equal. lia.
Qed.

Lemma lor_one_even y : Z.lor (2 * y) 1 = 2 * y + 1.
Proof.
  symmetry. apply Z.add_nocarry_lor.
  change 1 with (Z.ones 1) at 1. rewrite Z.land_ones by lia.
  change (2 ^ 1) with 2. rewrite Z.mul_comm. apply Z.mod_mul. lia.
Qed.

Lemma shift_or_is_push x : u8 (Z.lor (u8 (Z.shiftl x 1)) 1) = push_bit x true.
Proof.
  unfold push_bit, u8. cbn [Z.b2z]. rewrite Z.shiftl_mul_pow2 by lia.
  change (2 ^ 1) with 2.
  replace ((x * 2) mod 256) with (2 * (x mod 128))
    by (Z.div_mod_to_equations; lia).
  rewrite lor_one_even. Z.div_mod_to_equations; lia.
Qed.

(** Lines 120-123 shift the bit of the slot into byte [j]. *)
Lemma decode_step_push (data : list Z) (j : nat) (b : bool) :
  (j < length data)%nat ->
  (let data1 := <[j := u8 (Z.shiftl (data !!! j) 1)]> data in
   if b then <[j := u8 (Z.lor (data1 !!! j) 1)]> data1 else data1)
  = <[j := push_bit (data !!! j) b]> data.
Proof.
  intros Hj. cbv zeta. destruct b.
  - rewrite list_lookup_total_insert_eq by exact Hj.
    rewrite list_insert_insert_eq. f_equal. apply shift_or_is_push.
  - f_equal. apply shift_is_push.
Qed.

Lemma push_bit_range x b : 0 <= push_bit x b < 256.
Proof. unfold push_bit, u8. apply Z.mod_pos_bound. lia. Qed.

Lemma push_bits_range cycles : forall cnt x lo,
  0 <= x < 256 -> 0 <= push_bits cycles x lo cnt < 256.
Proof.
  induction cnt as [|c IH]; intros x lo Hx; cbn [push_bits].
  - exact Hx.
  - apply IH, push_bit_range.
Qed.

(** After at least one push the old contents no longer matter. *)
Lemma push_bits_range_pos cycles cnt x lo :
  (0 < cnt)%nat -> 0 <= push_bits cycles x lo cnt < 256.
Proof.
  destruct cnt as [|c]; [lia|]. intros _. cbn [push_bits].
  apply push_bits_range, push_bit_range.
Qed.

(** Bit [n] of a byte after [cnt] pushes: the slot pushed [n] steps before
    the last one, or an older bit of the byte moved up by [cnt]. *)
Lemma push_bits_testbit cycles : forall cnt x lo (n : nat),
  (n < 8)%nat ->
  Z.testbit (push_bits cycles x lo cnt) (Z.of_nat n) =
  if (n <? cnt)%nat then slot_bit cycles (lo + cnt - 1 - n)
  else Z.testbit x (Z.of_nat (n - cnt)).
Proof.
  induction cnt as [|c IH]; intros x lo n Hn; cbn [push_bits].
  - rewrite Nat.sub_0_r. reflexivity.
  - rewrite IH by exact Hn.
    destruct (n <? c)%nat eqn:E1.
    + apply Nat.ltb_lt in E1.
      replace (n <? S c)%nat with true by (symmetry; apply Nat.ltb_lt; lia).
      f_equal. lia.
    + apply Nat.ltb_ge in E1.
      unfold push_bit, u8. change 256 with (2 ^ 8).
      rewrite Z.mod_pow2_bits_low by lia.
      destruct (Nat.eq_dec n c) as [->|Hne].
      * replace (c <? S c)%nat with true by (symmetry; apply Nat.ltb_lt; lia).
        rewrite Nat.sub_diag. cbn [Z.of_nat].
        rewrite Z.testbit_0_r. f_equal. lia.
      * replace (n <? S c)%nat with false by (symmetry; apply Nat.ltb_ge; lia).
        replace (Z.of_nat (n - c)) with (Z.succ (Z.of_nat (n - S c))) by lia.
        rewrite Z.testbit_succ_r by lia. reflexivity.
Qed.

(** The loop invariant, read forwards: from slot [i] on, byte [j] receives
    the slots of its own group of eight that are still to come. *)
Lemma dht_decode_from_ok cycles : forall n i (data : list Z),
  length data = 5%nat -> (i + n = 40)%nat ->
  (forall k, (2 * i <= k < 80)%nat -> cycles !!! k <> 0) ->
  exists data' : list Z,
    dht_decode_from n i cycles data = (true, data') /\
    length data' = 5%nat /\
    forall j, (j < 5)%nat ->
      data' !!! j =
      push_bits cycles (data !!! j) (Nat.max i (8 * j))
                (8 * j + 8 - Nat.max i (8 * j)).
Proof.
  induction n as [|n IH]; intros i data Hlen Hin Hnz.
  - exists data. cbn [dht_decode_from]. repeat split; [exact Hlen|].
    intros j Hj.
    replace (8 * j + 8 - Nat.max i (8 * j))%nat with 0%nat by lia.
    reflexivity.
  - cbn [dht_decode_from].
    assert (Hlo : (cycles !!! (2 * i)%nat =? 0) = false)
      by (apply Z.eqb_neq, Hnz; lia).
    assert (Hhi : (cycles !!! (2 * i + 1)%nat =? 0) = false)
      by (apply Z.eqb_neq, Hnz; lia).
    rewrite Hlo, Hhi. cbn [orb]. cbv zeta.
    pose proof (Nat.div_mod_eq i 8) as Hdm.
    pose proof (Nat.mod_upper_bound i 8 ltac:(lia)) as Hr.
    set (j0 := (i / 8)%nat) in *.
    assert (Hj0 : (j0 < length data)%nat) by lia.
    pose proof (decode_step_push data j0 (slot_bit cycles i) Hj0) as Hstep.
    cbv zeta in Hstep. unfold slot_bit in Hstep at 1. rewrite Hstep.
    destruct (IH (S i) (<[j0 := push_bit (data !!! j0) (slot_bit cycles i)]> data))
      as (data' & Hrun & Hlen' & Hbytes).
    + rewrite length_insert. exact Hlen.
    + lia.
    + intros k Hk. apply Hnz. lia.
    + exists data'. repeat split; [exact Hrun | exact Hlen' |].
      intros j Hj. rewrite (Hbytes j Hj).
      destruct (Nat.eq_dec j j0) as [->|Hne].
      * rewrite list_lookup_total_insert_eq by exact Hj0.
        replace (Nat.max (S i) (8 * j0)) with (S i) by lia.
        replace (Nat.max i (8 * j0)) with i by lia.
        replace (8 * j0 + 8 - i)%nat with (S (8 * j0 + 8 - S i)) by lia.
        reflexivity.
      * rewrite list_lookup_total_insert_ne by (intros ->; apply Hne; reflexivity).
        destruct (Nat.lt_ge_cases j j0) as [Hlt|Hge].
        -- replace (8 * j + 8 - Nat.max (S i) (8 * j))%nat with 0%nat by lia.
           replace (8 * j + 8 - Nat.max i (8 * j))%nat with 0%nat by lia.
           reflexivity.
        -- replace (Nat.max (S i) (8 * j)) with (8 * j)%nat by lia.
           replace (Nat.max i (8 * j)) with (8 * j)%nat by lia.
           reflexivity.
Qed.

(** The whole loop on 80 nonzero durations. *)
Lemma dht_decode_ok (cycles data : list Z) :
  length data = 5%nat ->
  (forall k, (k < 80)%nat -> cycles !!! k <> 0) ->
  exists data' : list Z,
    dht_decode cycles data = (true, data') /\
    length data' = 5%nat /\
    forall j, (j < 5)%nat ->
      data' !!! j = push_bits cycles (data !!! j) (8 * j) 8.
Proof.
  intros Hlen Hnz.
  destruct (dht_decode_from_ok cycles 40 0 data Hlen eq_refl)
    as (data' & Hrun & Hlen' & Hbytes).
  - intros k Hk. apply Hnz. lia.
  - exists data'. repeat split; [exact Hrun | exact Hlen' |].
    intros j Hj. rewrite (Hbytes j Hj).
    replace (Nat.max 0 (8 * j)) with (8 * j)%nat by lia.
    replace (8 * j + 8 - 8 * j)%nat with 8%nat by lia.
    reflexivity.
Qed.

(** Two bytes with the same eight low bits are the same byte. *)
Lemma byte_bits_ext a b :
  0 <= a < 256 -> 0 <= b < 256 ->
  (forall n, (n < 8)%nat -> Z.testbit a (Z.of_nat n) = Z.testbit b (Z.of_nat n)) ->
  a = b.
Proof.
  intros Ha Hb Hbits. apply Z.bits_inj'. intros n Hn.
  destruct (Z.lt_ge_cases n 8) as [Hlt|Hge].
  - rewrite <- (Z2Nat.id n Hn). apply Hbits. lia.
  - rewrite <- (Z.mod_small a (2 ^ 8)), <- (Z.mod_small b (2 ^ 8))
      by (change (2 ^ 8) with 256; lia).
    rewrite !Z.mod_pow2_bits_high by lia. reflexivity.
Qed.

Lemma list5_ext (l : list Z) :
  length l = 5%nat ->
  l = [l !!! 0%nat; l !!! 1%nat; l !!! 2%nat; l !!! 3%nat; l !!! 4%nat].
Proof.
  destruct l as [|a [|b [|c [|d [|e [|f l]]]]]]; try discriminate.
  reflexivity.
Qed.

Lemma push_bits_const cycles (v : bool) x lo :
  (forall i, (lo <= i < lo + 8)%nat -> slot_bit cycles i = v) ->
  push_bits cycles x lo 8 = if v then 255 else 0.
Proof.
  intros Hall. apply byte_bits_ext.
  - apply push_bits_range_pos. lia.
  - destruct v; lia.
  - intros n Hn. rewrite push_bits_testbit by exact Hn.
    replace (n <? 8)%nat with true by (symmetry; apply Nat.ltb_lt; exact Hn).
    rewrite Hall by lia. destruct v.
    + change 255 with (Z.ones 8). rewrite Z.ones_spec_low by lia. reflexivity.
    + rewrite Z.bits_0. reflexivity.
Qed.

(** C1.  On 80 nonzero durations the decode loop runs to its end and
    leaves five bytes; bit-slot [i] lands in byte [i / 8] at bit position
    [7 - i mod 8] (most significant first) and is 1 exactly when
    [cycles[2i+1] > cycles[2i]].  When every high phase is longer than its
    low phase the five bytes are 0xFF; when every low phase is at least as
    long as its high phase they are 0x00. *)
Theorem dht_decode_bits (cycles data : list Z) :
  length cycles = 80%nat ->
  length data = 5%nat ->
  Forall (fun c => c <> 0) cycles ->
  exists data' : list Z,
    dht_decode cycles data = (true, data') /\
    length data' = 5%nat /\
    Forall (fun b => 0 <= b < 256) data' /\
    (forall i, (i < 40)%nat ->
       Z.testbit (data' !!! (i / 8)%nat) (Z.of_nat (7 - i mod 8)) =
       (cycles !!! (2 * i)%nat <? cycles !!! (2 * i + 1)%nat)) /\
    ((forall i, (i < 40)%nat ->
        cycles !!! (2 * i)%nat < cycles !!! (2 * i + 1)%nat) ->
     data' = [255; 255; 255; 255; 255]) /\
    ((forall i, (i < 40)%nat ->
        cycles !!! (2 * i + 1)%nat <= cycles !!! (2 * i)%nat) ->
     data' = [0; 0; 0; 0; 0]).
Proof.
  intros Hc Hd Hnz.
  destruct (dht_decode_ok cycles data Hd) as (data' & Hrun & Hlen & Hbytes).
  { intros k Hk. rewrite Forall_lookup_total in Hnz. apply Hnz. lia. }
  exists data'. split; [exact Hrun|]. split; [exact Hlen|].
  split; [|split; [|split]].
  - rewrite Forall_lookup_total. intros j Hj.
    rewrite Hbytes by lia. apply push_bits_range_pos. lia.
  - intros i Hi.
    pose proof (Nat.div_mod_eq i 8) as Hdm.
    pose proof (Nat.mod_upper_bound i 8 ltac:(lia)) as Hr.
    rewrite Hbytes by lia.
    rewrite push_bits_testbit by lia.
    replace (7 - i mod 8 <? 8)%nat with true
      by (symmetry; apply Nat.ltb_lt; lia).
    unfold slot_bit.
    replace (8 * (i / 8) + 8 - 1 - (7 - i mod 8))%nat with i by lia.
    reflexivity.
  - intros Hall. rewrite (list5_ext data' Hlen).
    rewrite !Hbytes by lia.
    rewrite !(push_bits_const cycles true); [reflexivity|..];
      intros i Hi; unfold slot_bit; apply Z.ltb_lt, Hall; lia.
  - intros Hall. rewrite (list5_ext data' Hlen).
    rewrite !Hbytes by lia.
    rewrite !(push_bits_const cycles false); [reflexivity|..];
      intros i Hi; unfold slot_bit; apply Z.ltb_ge, Hall; lia.
Qed.

(** ** The paths through dht_read *)

(** Lines 62-65: a rate-limited call reads the clock and nothing else. *)
Lemma dht_read_cached d w :
  cache_hit d w = true ->
  dht_read d w =
  ((last_result d,
    with_stats (stats_cached_incr (stats_read_incr (stats d))) d),
   snd (mg_time w)).
Proof.
  intros H. unfold dht_read, bind.
  change (rate_limited _ (fst (mg_time w))) with (cache_hit d w).
  rewrite H. reflexivity.
Qed.

(** Lines 66-133: a fresh attempt, by the outcome of the handshake, of the
    decode loop and of the checksum. *)
Lemma dht_read_fresh d w :
  cache_hit d w = false ->
  dht_read d w =
  let start := clock w (clock_reads w) in
  let d1 := attempt_handle d w in
  if negb (handshake_ok d w)
  then ((false, d1), snd (mgos_ints_enable (capture_world d w)))
  else
    let w2 := snd (mgos_ints_enable
                     (snd (dht_capture 40 (pin d) (capture_world d w)))) in
    let dec := dht_decode (captured d w) zero_data in
    let d2 := with_data (snd dec) d1 in
    if negb (fst dec) then ((false, d2), w2)
    else if checksum_ok (snd dec)
    then ((true,
           with_stats (stats_success start (fst (mg_time w2)) (stats d1))
                      (with_result true d2)),
          snd (mg_time w2))
    else ((false, d2), w2).
Proof.
  intros H. unfold dht_read, bind.
  unfold captured, handshake_ok. unfold capture_world. unfold handshake_world.
  unfold attempt_handle. unfold cache_hit in H. unfold rate_limited in *.
  cbn [fst snd mg_time pin type data stats last_result dht_reset with_data
       with_result with_stats stats_read_incr stats_set_time last_read_time].
  rewrite H. cbv zeta.
  match goal with
  | |- context [fst (dht_handshake ?a ?b)] => destruct (fst (dht_handshake a b))
  end; cbv beta iota delta [negb]; [|reflexivity].
  match goal with
  | |- context [fst (dht_decode ?a ?b)] => destruct (fst (dht_decode a b))
  end; cbv beta iota delta [negb]; [|reflexivity].
  match goal with
  | |- context [checksum_ok ?a] => destruct (checksum_ok a)
  end; reflexivity.
Qed.

Lemma dht_capture_length p : forall n w,
  length (fst (dht_capture n p w)) = (2 * n)%nat.
Proof.
  induction n as [|n IH]; intros w; [reflexivity|].
  cbn [dht_capture]. unfold bind at 1 2 3. cbn [fst snd ret length].
  rewrite IH. lia.
Qed.

(** The start signal polls nothing: the handshake sees the pin from the
    poll the call started at. *)
Lemma handshake_world_polls d w :
  polls (handshake_world d w) = polls w /\
  pin_level (handshake_world d w) = pin_level w.
Proof.
  unfold handshake_world, dht_start_signal, bind, attempt_handle.
  cbn [type dht_reset with_data with_result with_stats].
  destruct (is_ITEAD_SI7021 (type d)); split; reflexivity.
Qed.

Lemma dht_handshake_first_zero p w :
  fst (dht_wait p 1 90 w) = 0 -> fst (dht_handshake p w) = false.
Proof.
  intros H. unfold dht_handshake, bind. rewrite H. reflexivity.
Qed.

Lemma dht_handshake_second_zero p w :
  fst (dht_wait p 0 90 (snd (dht_wait p 1 90 w))) = 0 ->
  fst (dht_handshake p w) = false.
Proof.
  intros H. unfold dht_handshake, bind.
  destruct (fst (dht_wait p 1 90 w) =? 0); [reflexivity|].
  rewrite H. reflexivity.
Qed.

(** A failed handshake (line 95-98). *)
Lemma dht_read_no_ack d w :
  cache_hit d w = false -> handshake_ok d w = false ->
  dht_read d w =
  ((false, attempt_handle d w), snd (mgos_ints_enable (capture_world d w))).
Proof.
  intros Hc Hh. rewrite (dht_read_fresh d w Hc). cbv zeta.
  rewrite Hh. reflexivity.
Qed.

(** A zero anywhere among the slots still to be decoded stops the loop. *)
Lemma dht_decode_from_zero cycles : forall n i (data : list Z) (k : nat),
  (2 * i <= k < 2 * (i + n))%nat -> cycles !!! k = 0 ->
  fst (dht_decode_from n i cycles data) = false.
Proof.
  induction n as [|n IH]; intros i data k Hk Hz; [lia|].
  cbn [dht_decode_from].
  destruct (cycles !!! (2 * i)%nat =? 0) eqn:Elo; [reflexivity|].
  destruct (cycles !!! (2 * i + 1)%nat =? 0) eqn:Ehi; [reflexivity|].
  cbn [orb]. cbv zeta.
  apply Z.eqb_neq in Elo, Ehi.
  apply (IH (S i) _ k); [|exact Hz].
  assert (k <> (2 * i)%nat) by (intros ->; apply Elo, Hz).
  assert (k <> (2 * i + 1)%nat) by (intros ->; apply Ehi, Hz).
  lia.
Qed.

(** The loop up to a slot [i0] that holds a zero: it stops there, with the
    slots before [i0] shifted into their bytes. *)
Lemma dht_decode_from_stops cycles (i0 : nat) : forall n i (data : list Z),
  length data = 5%nat -> (i + n = 40)%nat -> (i <= i0 < 40)%nat ->
  (forall k, (2 * i <= k < 2 * i0)%nat -> cycles !!! k <> 0) ->
  cycles !!! (2 * i0)%nat = 0 \/ cycles !!! (2 * i0 + 1)%nat = 0 ->
  exists data' : list Z,
    dht_decode_from n i cycles data = (false, data') /\
    length data' = 5%nat /\
    forall j, (j < 5)%nat ->
      data' !!! j =
      push_bits cycles (data !!! j) (Nat.max i (8 * j))
                (Nat.min i0 (8 * j + 8) - Nat.max i (8 * j)).
Proof.
  induction n as [|n IH]; intros i data Hlen Hin Hi Hnz Hzero; [lia|].
  cbn [dht_decode_from].
  destruct (Nat.eq_dec i i0) as [->|Hne].
  - assert (Hor : (cycles !!! (2 * i0)%nat =? 0)
                  || (cycles !!! (2 * i0 + 1)%nat =? 0) = true).
    { apply orb_true_iff.
      destruct Hzero as [H|H]; [left|right]; apply Z.eqb_eq, H. }
    rewrite Hor. exists data. split; [reflexivity|]. split; [exact Hlen|].
    intros j Hj.
    replace (Nat.min i0 (8 * j + 8) - Nat.max i0 (8 * j))%nat with 0%nat
      by lia.
    reflexivity.
  - assert (Hlo : (cycles !!! (2 * i)%nat =? 0) = false)
      by (apply Z.eqb_neq, Hnz; lia).
    assert (Hhi : (cycles !!! (2 * i + 1)%nat =? 0) = false)
      by (apply Z.eqb_neq, Hnz; lia).
    rewrite Hlo, Hhi. cbn [orb]. cbv zeta.
    pose proof (Nat.div_mod_eq i 8) as Hdm.
    pose proof (Nat.mod_upper_bound i 8 ltac:(lia)) as Hr.
    set (j0 := (i / 8)%nat) in *.
    assert (Hj0 : (j0 < length data)%nat) by lia.
    pose proof (decode_step_push data j0 (slot_bit cycles i) Hj0) as Hstep.
    cbv zeta in Hstep. unfold slot_bit in Hstep at 1. rewrite Hstep.
    destruct (IH (S i) (<[j0 := push_bit (data !!! j0) (slot_bit cycles i)]> data))
      as (data' & Hrun & Hlen' & Hbytes).
    + rewrite length_insert. exact Hlen.
    + lia.
    + lia.
    + intros k Hk. apply Hnz. lia.
    + exact Hzero.
    + exists data'. split; [exact Hrun|]. split; [exact Hlen'|].
      intros j Hj. rewrite (Hbytes j Hj).
      destruct (Nat.eq_dec j j0) as [->|Hnej].
      * rewrite list_lookup_total_insert_eq by exact Hj0.
        replace (Nat.max (S i) (8 * j0)) with (S i) by lia.
        replace (Nat.max i (8 * j0)) with i by lia.
        replace (Nat.min i0 (8 * j0 + 8) - i)%nat
          with (S (Nat.min i0 (8 * j0 + 8) - S i)) by lia.
        reflexivity.
      * rewrite list_lookup_total_insert_ne
          by (intros ->; apply Hnej; reflexivity).
        destruct (Nat.lt_ge_cases j j0) as [Hlt|Hge].
        -- replace (Nat.min i0 (8 * j + 8) - Nat.max (S i) (8 * j))%nat
             with 0%nat by lia.
           replace (Nat.min i0 (8 * j + 8) - Nat.max i (8 * j))%nat
             with 0%nat by lia.
           reflexivity.
        -- replace (Nat.max (S i) (8 * j)) with (8 * j)%nat by lia.
           replace (Nat.max i (8 * j)) with (8 * j)%nat by lia.
           reflexivity.
Qed.

(** A zero among the durations has a first bit-slot that holds one. *)
Lemma first_zero_slot (cycles : list Z) (k : nat) :
  cycles !!! k = 0 ->
  exists i0 : nat,
    (i0 <= k / 2)%nat /\
    (forall j, (j < 2 * i0)%nat -> cycles !!! j <> 0) /\
    (cycles !!! (2 * i0)%nat = 0 \/ cycles !!! (2 * i0 + 1)%nat = 0).
Proof.
  intros Hz.
  assert (Hsearch : forall n : nat,
            (forall j, (j < 2 * n)%nat -> cycles !!! j <> 0) \/
            exists i0 : nat,
              (i0 < n)%nat /\
              (forall j, (j < 2 * i0)%nat -> cycles !!! j <> 0) /\
              (cycles !!! (2 * i0)%nat = 0 \/
               cycles !!! (2 * i0 + 1)%nat = 0)).
  { induction n as [|n [IH|(i0 & Hi & Hb & Hat)]].
    - left. intros j Hj. lia.
    - destruct (Z.eq_dec (cycles !!! (2 * n)%nat) 0) as [Hlo|Hlo].
      + right. exists n. split; [lia|]. split; [exact IH | left; exact Hlo].
      + destruct (Z.eq_dec (cycles !!! (2 * n + 1)%nat) 0) as [Hhi|Hhi].
        * right. exists n. split; [lia|].
          split; [exact IH | right; exact Hhi].
        * left. intros j Hj.
          destruct (Nat.eq_dec j (2 * n)%nat) as [->|H1]; [exact Hlo|].
          destruct (Nat.eq_dec j (2 * n + 1)%nat) as [->|H2]; [exact Hhi|].
          apply IH. lia.
    - right. exists i0. split; [lia|]. split; assumption. }
  pose proof (Nat.div_mod_eq k 2) as Hdm.
  pose proof (Nat.mod_upper_bound k 2 ltac:(lia)) as Hr.
  destruct (Hsearch (S (k / 2))) as [Hall|(i0 & Hi & Hb & Hat)].
  - exfalso. apply (Hall k); [lia | exact Hz].
  - exists i0. split; [lia|]. split; assumption.
Qed.

Lemma dht_decode_zero (cycles data : list Z) (k : nat) :
  (k < 80)%nat -> cycles !!! k = 0 -> fst (dht_decode cycles data) = false.
Proof.
  intros Hk Hz. apply (dht_decode_from_zero cycles 40 0 data k); [lia|exact Hz].
Qed.

(** A bit timeout (lines 115-117). *)
Lemma dht_read_bit_timeout d w (k : nat) :
  cache_hit d w = false -> handshake_ok d w = true ->
  (k < 80)%nat -> captured d w !!! k = 0 ->
  dht_read d w =
  ((false,
    with_data (snd (dht_decode (captured d w) zero_data)) (attempt_handle d w)),
   snd (mgos_ints_enable (snd (dht_capture 40 (pin d) (capture_world d w))))).
Proof.
  intros Hc Hh Hk Hz. rewrite (dht_read_fresh d w Hc). cbv zeta.
  rewrite Hh, (dht_decode_zero _ zero_data k Hk Hz). reflexivity.
Qed.

(** Decoded to the end: the checksum decides (lines 126-133). *)
Lemma dht_read_decoded d w :
  cache_hit d w = false -> handshake_ok d w = true ->
  fst (dht_decode (captured d w) zero_data) = true ->
  let data' := snd (dht_decode (captured d w) zero_data) in
  let w2 := snd (mgos_ints_enable
                   (snd (dht_capture 40 (pin d) (capture_world d w)))) in
  dht_read d w =
  if checksum_ok data'
  then ((true,
         with_stats (stats_success (clock w (clock_reads w)) (fst (mg_time w2))
                                   (stats (attempt_handle d w)))
                    (with_result true (with_data data' (attempt_handle d w)))),
        snd (mg_time w2))
  else ((false, with_data data' (attempt_handle d w)), w2).
Proof.
  intros Hc Hh Hd. rewrite (dht_read_fresh d w Hc). cbv zeta.
  rewrite Hh, Hd. reflexivity.
Qed.

(** ** The claims *)

(** C10.  [dht_wait] never returns more than its timeout.  It returns 0
    when the timeout elapses without the pin showing the level, and also
    when the pin shows the level on the first poll; [dht_read] takes a 0
    from either wait of the handshake, and a 0 in any captured slot, as a
    failure. *)
Theorem dht_wait_zero_ambiguous (p lvl usecs : Z) (w : World) :
  0 <= usecs < 2 ^ 32 ->
  0 <= fst (dht_wait p lvl usecs w) <= usecs /\
  ((forall k, (k <= Z.to_nat usecs)%nat ->
      Z.b2z (pin_level w p (polls w + k)) <> lvl) ->
   fst (dht_wait p lvl usecs w) = 0) /\
  (Z.b2z (pin_level w p (polls w)) = lvl ->
   fst (dht_wait p lvl usecs w) = 0) /\
  (forall d w0,
      cache_hit d w0 = false ->
      fst (dht_wait (pin d) 1 90 (handshake_world d w0)) = 0 \/
      fst (dht_wait (pin d) 0 90
             (snd (dht_wait (pin d) 1 90 (handshake_world d w0)))) = 0 \/
      (handshake_ok d w0 = true /\ 0 ∈ captured d w0) ->
      fst (fst (dht_read d w0)) = false).
Proof.
  intros Hu.
  assert (Hres := dht_wait_loop_result (S (Z.to_nat usecs)) p lvl usecs 0 w).
  cbv zeta in Hres. fold (dht_wait p lvl usecs w) in Hres.
  replace (usecs - 0) with usecs in Hres by lia.
  specialize (Hres ltac:(lia) ltac:(lia) ltac:(lia)).
  split; [|split; [|split]].
  - destruct Hres as [(k & Hk & _ & _ & Hr & _)|(_ & Hr & _)]; rewrite Hr; lia.
  - intros Hnever.
    destruct Hres as [(k & Hk & _ & Hat & _)|(_ & Hr & _)]; [|exact Hr].
    exfalso. exact (Hnever k Hk Hat).
  - intros Hnow.
    destruct Hres as [(k & Hk & Hbefore & _ & Hr & _)|(Hall & _)].
    + destruct k as [|k]; [rewrite Hr; lia|].
      exfalso. apply (Hbefore 0%nat); [lia|].
      rewrite Nat.add_0_r. exact Hnow.
    + exfalso. apply (Hall 0%nat); [lia|].
      rewrite Nat.add_0_r. exact Hnow.
  - intros d w0 Hc [H1|[H2|[Hh Hin]]].
    + rewrite (dht_read_no_ack d w0 Hc); [reflexivity|].
      apply dht_handshake_first_zero, H1.
    + rewrite (dht_read_no_ack d w0 Hc); [reflexivity|].
      apply dht_handshake_second_zero, H2.
    + apply list_elem_of_lookup in Hin as [k Hk].
      assert (Hlt : (k < 80)%nat).
      { apply lookup_lt_Some in Hk. unfold captured in Hk.
        rewrite dht_capture_length in Hk. lia. }
      rewrite (dht_read_bit_timeout d w0 k Hc Hh Hlt); [reflexivity|].
      apply list_lookup_total_correct, Hk.
Qed.

(** The two queries in terms of [dht_read]. *)
Lemma mgos_dht_get_temp_eq d w :
  mgos_dht_get_temp (Some d) w =
  ((if fst (fst (dht_read d w)) then temp_of (snd (fst (dht_read d w))) else NAN,
    Some (snd (fst (dht_read d w)))),
   snd (dht_read d w)).
Proof. reflexivity. Qed.

Lemma mgos_dht_get_humidity_eq d w :
  mgos_dht_get_humidity (Some d) w =
  ((if fst (fst (dht_read d w)) then humidity_of (snd (fst (dht_read d w)))
    else NAN,
    Some (snd (fst (dht_read d w)))),
   snd (dht_read d w)).
Proof. reflexivity. Qed.

(** A fresh attempt does not look at the old buffer. *)
Lemma fresh_ignores_data l d w :
  attempt_handle (with_data l d) w = attempt_handle d w /\
  handshake_ok (with_data l d) w = handshake_ok d w /\
  capture_world (with_data l d) w = capture_world d w /\
  captured (with_data l d) w = captured d w.
Proof.
  assert (Ha : attempt_handle (with_data l d) w = attempt_handle d w)
    by reflexivity.
  assert (Hw : handshake_world (with_data l d) w = handshake_world d w)
    by (unfold handshake_world; rewrite Ha; reflexivity).
  assert (Hcw : capture_world (with_data l d) w = capture_world d w)
    by (unfold capture_world; rewrite Hw; reflexivity).
  split; [|split; [|split]].
  - exact Ha.
  - unfold handshake_ok. rewrite Hw. reflexivity.
  - exact Hcw.
  - unfold captured. rewrite Hcw. reflexivity.
Qed.

(** While [last_result] is false the contents of the buffer are dead: a
    cached call reports failure, a fresh one clears the buffer first. *)
Lemma dht_read_data_dead l d w :
  last_result d = false ->
  fst (fst (dht_read (with_data l d) w)) = fst (fst (dht_read d w)) /\
  (fst (fst (dht_read d w)) = true ->
   snd (fst (dht_read (with_data l d) w)) = snd (fst (dht_read d w))).
Proof.
  intros Hres.
  assert (Hc : cache_hit (with_data l d) w = cache_hit d w) by reflexivity.
  destruct (cache_hit d w) eqn:E.
  - rewrite (dht_read_cached _ w Hc), (dht_read_cached d w E).
    cbn [fst snd last_result with_data]. rewrite Hres.
    split; [reflexivity | discriminate].
  - rewrite (dht_read_fresh _ w Hc), (dht_read_fresh d w E). cbv zeta.
    destruct (fresh_ignores_data l d w) as (-> & -> & -> & ->).
    cbn [pin with_data]. split; reflexivity.
Qed.

(** C3, as the code has it.  When either wait of the handshake returns 0 on
    a fresh attempt, the read returns failure with the last-result flag
    false, and the buffer holds five zero bytes: line 68 clears it before
    the bus is touched. *)
Theorem dht_read_handshake_failure d w :
  cache_hit d w = false ->
  fst (dht_wait (pin d) 1 90 (handshake_world d w)) = 0 \/
  fst (dht_wait (pin d) 0 90
         (snd (dht_wait (pin d) 1 90 (handshake_world d w)))) = 0 ->
  let '(r, d', _) := dht_read d w in
  r = false /\ last_result d' = false /\ data d' = zero_data.
Proof.
  intros Hc Hw.
  assert (Hh : handshake_ok d w = false).
  { destruct Hw as [H1|H2].
    - apply dht_handshake_first_zero, H1.
    - apply dht_handshake_second_zero, H2. }
  rewrite (dht_read_no_ack d w Hc Hh).
  split; [|split]; reflexivity.
Qed.

(** C3 as stated fails: a handle that holds the bytes of a good reading has
    them overwritten with zeros by an attempt on a line that never goes
    high. *)
Lemma dht_read_handshake_failure_clears_data :
  ~ (forall d w,
        cache_hit d w = false ->
        fst (dht_wait (pin d) 1 90 (handshake_world d w)) = 0 \/
        fst (dht_wait (pin d) 0 90
               (snd (dht_wait (pin d) 1 90 (handshake_world d w)))) = 0 ->
        data (snd (fst (dht_read d w))) = data d).
Proof.
  intros H.
  specialize (H used_dht22 dead_line).
  assert (Hc : cache_hit used_dht22 dead_line = false)
    by (vm_compute; reflexivity).
  assert (Hw : fst (dht_wait (pin used_dht22) 1 90
                      (handshake_world used_dht22 dead_line)) = 0)
    by (vm_compute; reflexivity).
  specialize (H Hc (or_introl Hw)).
  vm_compute in H. discriminate H.
Qed.

(** C8, as the code has it.  On a fresh attempt whose handshake succeeded,
    a 0 in any of the 80 captured slots makes the read fail: it returns
    false with the last-result flag false and the success counters
    untouched, both queries yield not-a-number, and no later query depends
    on the buffer.  The buffer itself is not left clear: the decode loop
    writes it in place and stops at the first bit-slot [i0] that holds a
    zero, so the bytes before byte [i0 / 8] are decoded in full, byte
    [i0 / 8] holds the [i0 mod 8] bits decoded before the timeout, and only
    the bytes after it are zero. *)
Theorem dht_read_slot_timeout d w (k : nat) :
  cache_hit d w = false ->
  handshake_ok d w = true ->
  (k < 80)%nat ->
  captured d w !!! k = 0 ->
  let '(r, d', _) := dht_read d w in
  r = false /\ last_result d' = false /\
  read_success (stats d') = read_success (stats d) /\
  read_success_usecs (stats d') = read_success_usecs (stats d) /\
  fst (fst (mgos_dht_get_temp (Some d) w)) = NAN /\
  fst (fst (mgos_dht_get_humidity (Some d) w)) = NAN /\
  (forall l w2,
      fst (fst (mgos_dht_get_temp (Some (with_data l d')) w2)) =
      fst (fst (mgos_dht_get_temp (Some d') w2)) /\
      fst (fst (mgos_dht_get_humidity (Some (with_data l d')) w2)) =
      fst (fst (mgos_dht_get_humidity (Some d') w2))) /\
  data d' = snd (dht_decode (captured d w) zero_data) /\
  exists i0 : nat,
    (i0 <= k / 2)%nat /\
    (forall j, (j < 2 * i0)%nat -> captured d w !!! j <> 0) /\
    (captured d w !!! (2 * i0)%nat = 0 \/
     captured d w !!! (2 * i0 + 1)%nat = 0) /\
    length (data d') = 5%nat /\
    (forall j, (j < i0 / 8)%nat ->
       data d' !!! j = push_bits (captured d w) 0 (8 * j) 8) /\
    data d' !!! (i0 / 8)%nat =
      push_bits (captured d w) 0 (8 * (i0 / 8)) (i0 mod 8) /\
    (forall j, (i0 / 8 < j < 5)%nat -> data d' !!! j = 0).
Proof.
  intros Hc Hh Hk Hz.
  destruct (first_zero_slot (captured d w) k Hz) as (i0 & Hi0 & Hnz & Hat).
  pose proof (Nat.div_mod_eq k 2) as Hdmk.
  pose proof (Nat.mod_upper_bound k 2 ltac:(lia)) as Hrk.
  destruct (dht_decode_from_stops (captured d w) i0 40 0 zero_data
              eq_refl eq_refl) as (data' & Hrun & Hlen' & Hbytes);
    [lia | | exact Hat |].
  { intros j Hj. apply Hnz. lia. }
  assert (Hdec : dht_decode (captured d w) zero_data = (false, data'))
    by exact Hrun.
  assert (Hz0 : forall j, (j < 5)%nat -> zero_data !!! j = 0).
  { intros j Hj. do 5 (destruct j as [|j]; [reflexivity|]). lia. }
  rewrite mgos_dht_get_temp_eq, mgos_dht_get_humidity_eq.
  rewrite (dht_read_bit_timeout d w k Hc Hh Hk Hz).
  rewrite Hdec.
  cbn [fst snd].
  set (cycles := captured d w) in *. clearbody cycles.
  set (d' := with_data data' (attempt_handle d w)).
  assert (Hres : last_result d' = false) by reflexivity.
  assert (Hdat : data d' = data') by reflexivity.
  split; [reflexivity|]. split; [exact Hres|].
  split; [reflexivity|]. split; [reflexivity|].
  split; [reflexivity|]. split; [reflexivity|].
  split.
  { intros l w2.
    rewrite !mgos_dht_get_temp_eq, !mgos_dht_get_humidity_eq. cbn [fst snd].
    destruct (dht_read_data_dead l d' w2 Hres) as [Hr Hd].
    rewrite Hr.
    destruct (fst (fst (dht_read d' w2))); [|split; reflexivity].
    rewrite (Hd eq_refl). split; reflexivity. }
  split; [exact Hdat|].
  rewrite Hdat. clearbody d'.
  pose proof (Nat.div_mod_eq i0 8) as Hdm.
  pose proof (Nat.mod_upper_bound i0 8 ltac:(lia)) as Hr.
  exists i0. split; [exact Hi0|]. split; [exact Hnz|]. split; [exact Hat|].
  split; [exact Hlen'|]. split; [|split].
  - intros j Hj. rewrite Hbytes, Hz0 by lia.
    replace (Nat.max 0 (8 * j)) with (8 * j)%nat by lia.
    replace (Nat.min i0 (8 * j + 8) - 8 * j)%nat with 8%nat by lia.
    reflexivity.
  - rewrite Hbytes, Hz0 by lia.
    replace (Nat.max 0 (8 * (i0 / 8))) with (8 * (i0 / 8))%nat by lia.
    replace (Nat.min i0 (8 * (i0 / 8) + 8) - 8 * (i0 / 8))%nat
      with (i0 mod 8)%nat by lia.
    reflexivity.
  - intros j Hj. rewrite Hbytes, Hz0 by lia.
    replace (Nat.min i0 (8 * j + 8) - Nat.max 0 (8 * j))%nat with 0%nat
      by lia.
    reflexivity.
Qed.

(** C8 as stated fails where it says that no partial data is produced: a
    sensor that sends 39 bits and then holds the line high makes the read
    fail at the last slot, and the freshly cleared buffer of the handle
    ends as [2; 140; 128; 25; 19], the 39 bits decoded before the
    timeout. *)
Lemma dht_read_slot_timeout_partial_data :
  ~ (forall d w (k : nat),
        cache_hit d w = false ->
        handshake_ok d w = true ->
        (k < 80)%nat ->
        captured d w !!! k = 0 ->
        let '(r, d', _) := dht_read d w in
        r = false /\ data d' = zero_data).
Proof.
  intros H.
  specialize (H new_dht22 stuck_in_last_bit 79%nat).
  assert (Hc : cache_hit new_dht22 stuck_in_last_bit = false)
    by (vm_compute; reflexivity).
  assert (Hh : handshake_ok new_dht22 stuck_in_last_bit = true)
    by (vm_compute; reflexivity).
  assert (Hz : captured new_dht22 stuck_in_last_bit !!! 79%nat = 0)
    by (vm_compute; reflexivity).
  specialize (H Hc Hh ltac:(lia) Hz).
  vm_compute in H. destruct H as [_ H]. discriminate H.
Qed.

(** C2.  On a fresh attempt that captured 80 nonzero durations the read
    succeeds exactly when byte 4 of the decoded buffer is the low 8 bits
    of byte0 + byte1 + byte2 + byte3; on a mismatch it returns failure, the
    last-result flag is false and neither success counter has moved. *)
Theorem dht_read_checksum d w :
  cache_hit d w = false ->
  handshake_ok d w = true ->
  Forall (fun c => c <> 0) (captured d w) ->
  let '(r, d', _) := dht_read d w in
  let b := fun i : nat => data d' !!! i in
  data d' = snd (dht_decode (captured d w) zero_data) /\
  (r = true <-> b 4%nat = (b 0%nat + b 1%nat + b 2%nat + b 3%nat) mod 256) /\
  (b 4%nat <> (b 0%nat + b 1%nat + b 2%nat + b 3%nat) mod 256 ->
   r = false /\ last_result d' = false /\
   read_success (stats d') = read_success (stats d) /\
   read_success_usecs (stats d') = read_success_usecs (stats d)).
Proof.
  intros Hc Hh Hnz.
  destruct (dht_decode_bits (captured d w) zero_data) as (data' & Hrun & _).
  { unfold captured. rewrite dht_capture_length. reflexivity. }
  { reflexivity. }
  { exact Hnz. }
  assert (Hd : fst (dht_decode (captured d w) zero_data) = true)
    by (rewrite Hrun; reflexivity).
  rewrite (dht_read_decoded d w Hc Hh Hd). cbv zeta.
  rewrite Hrun. cbn [snd].
  assert (Hsum : checksum_ok data' = true <->
                 data' !!! 4%nat =
                 (data' !!! 0%nat + data' !!! 1%nat + data' !!! 2%nat
                  + data' !!! 3%nat) mod 256).
  { unfold checksum_ok. rewrite Z.eqb_eq.
    change 255 with (Z.ones 8). rewrite Z.land_ones by lia.
    change (2 ^ 8) with 256. reflexivity. }
  destruct (checksum_ok data') eqn:E; cbn [fst snd data with_data with_stats
                                            with_result].
  - split; [reflexivity|]. split.
    + split; intros _; [apply Hsum|]; reflexivity.
    + intros Hne. exfalso. apply Hne, Hsum. reflexivity.
  - split; [reflexivity|]. split.
    + split; [discriminate|]. intros Heq. apply Hsum in Heq. discriminate Heq.
    + intros _. repeat split.
Qed.

(** ** The trace of a call *)

Lemma extends_trans w1 w2 w3 evs1 evs2 :
  extends w1 w2 evs1 -> extends w2 w3 evs2 -> extends w1 w3 (evs2 ++ evs1).
Proof.
  unfold extends. intros H1 H2. rewrite H2, H1. apply app_assoc.
Qed.

Lemma dht_wait_loop_trace p lvl usecs : forall fuel t w,
  exists evs, extends w (snd (dht_wait_loop fuel p lvl usecs t w)) evs.
Proof.
  induction fuel as [|fuel IH]; intros t w.
  - exists []. reflexivity.
  - rewrite dht_wait_loop_step. cbv zeta.
    destruct (negb _); [destruct (t =? usecs)|].
    + exists [EvRead p (pin_level w p (polls w))]. reflexivity.
    + destruct (IH (u32 (t + 1))
                   (snd (mgos_usleep 1 (snd (mgos_gpio_read p w))))) as [evs H].
      exists (evs ++ [EvUsleep 1; EvRead p (pin_level w p (polls w))]).
      unfold extends in *. rewrite H, <- app_assoc. reflexivity.
    + exists [EvRead p (pin_level w p (polls w))]. reflexivity.
Qed.

Lemma dht_wait_trace p lvl usecs w :
  exists evs, extends w (snd (dht_wait p lvl usecs w)) evs.
Proof. apply dht_wait_loop_trace. Qed.

Lemma dht_handshake_trace p w :
  exists evs, extends w (snd (dht_handshake p w)) evs.
Proof.
  unfold dht_handshake, bind.
  destruct (dht_wait_trace p 1 90 w) as [evs1 H1].
  destruct (fst (dht_wait p 1 90 w) =? 0).
  - exists evs1. exact H1.
  - destruct (dht_wait_trace p 0 90 (snd (dht_wait p 1 90 w))) as [evs2 H2].
    exists (evs2 ++ evs1). exact (extends_trans _ _ _ _ _ H1 H2).
Qed.

Lemma dht_capture_trace p : forall n w,
  exists evs, extends w (snd (dht_capture n p w)) evs.
Proof.
  induction n as [|n IH]; intros w.
  - exists []. reflexivity.
  - cbn [dht_capture]. unfold bind at 1 2 3. cbn [snd ret].
    destruct (dht_wait_trace p 1 500 w) as [evs1 H1].
    destruct (dht_wait_trace p 0 500 (snd (dht_wait p 1 500 w))) as [evs2 H2].
    destruct (IH (snd (dht_wait p 0 500 (snd (dht_wait p 1 500 w)))))
      as [evs3 H3].
    exists (evs3 ++ evs2 ++ evs1).
    exact (extends_trans _ _ _ _ _ (extends_trans _ _ _ _ _ H1 H2) H3).
Qed.

(** The platform calls of lines 60-91, most recent first. *)
Lemma handshake_world_trace d w :
  extends w (handshake_world d w)
    [EvUsleep 40;
     EvSetPull (pin d) MGOS_GPIO_PULL_UP;
     EvSetMode (pin d) MGOS_GPIO_MODE_INPUT;
     EvIntsDisable;
     (if is_ITEAD_SI7021 (type d) then EvUsleep 500 else EvMsleep 18);
     EvWrite (pin d) 0;
     EvSetMode (pin d) MGOS_GPIO_MODE_OUTPUT;
     EvMsleep 10;
     EvSetPull (pin d) MGOS_GPIO_PULL_UP;
     EvSetMode (pin d) MGOS_GPIO_MODE_INPUT;
     EvTime (clock w (clock_reads w))].
Proof.
  unfold extends, handshake_world, dht_start_signal, bind, attempt_handle.
  cbn [type pin dht_reset with_data with_result with_stats].
  destruct (is_ITEAD_SI7021 (type d)); reflexivity.
Qed.

(** From the start of a fresh call to the end of the capture loop the mask
    is touched once, by the [mgos_ints_disable] of line 87. *)
Lemma critical_section_trace d w :
  (exists evs, extends w (capture_world d w) evs /\ In EvIntsDisable evs) /\
  (exists evs,
      extends w (snd (dht_capture 40 (pin d) (capture_world d w))) evs /\
      In EvIntsDisable evs).
Proof.
  unfold capture_world.
  pose proof (handshake_world_trace d w) as H0.
  destruct (dht_handshake_trace (pin d) (handshake_world d w)) as [evs1 H1].
  destruct (dht_capture_trace (pin d) 40
              (snd (dht_handshake (pin d) (handshake_world d w))))
    as [evs2 H2].
  pose proof (extends_trans _ _ _ _ _ H0 H1) as H01.
  pose proof (extends_trans _ _ _ _ _ H01 H2) as H012.
  split; eexists; (split; [eassumption|]).
  - apply in_or_app. right. cbn. tauto.
  - apply in_or_app. right. apply in_or_app. right. cbn. tauto.
Qed.

(** C9.  The events of a call contain an [mgos_ints_disable] exactly when
    the call is a fresh attempt; then the call returns with interrupts
    enabled and the latest mask event is the [mgos_ints_enable], on the
    abort after a failed handshake as on the path through the capture loop.
    A rate-limited call leaves the mask alone. *)
Theorem dht_read_restores_interrupts d w :
  let '(_, _, w') := dht_read d w in
  exists evs,
    extends w w' evs /\
    (cache_hit d w = false <-> In EvIntsDisable evs) /\
    (In EvIntsDisable evs ->
     ints_enabled w' = true /\ last_ints_event evs = Some EvIntsEnable) /\
    (~ In EvIntsDisable evs -> ints_enabled w' = ints_enabled w).
Proof.
  destruct (cache_hit d w) eqn:Hc.
  - rewrite (dht_read_cached d w Hc).
    exists [EvTime (clock w (clock_reads w))].
    split; [reflexivity|].
    assert (Hno : ~ In EvIntsDisable [EvTime (clock w (clock_reads w))])
      by (intros [H|[]]; discriminate H).
    split; [|split].
    + split; [discriminate | intros H; destruct (Hno H)].
    + intros H. destruct (Hno H).
    + intros _. reflexivity.
  - rewrite (dht_read_fresh d w Hc). cbv zeta.
    destruct (critical_section_trace d w)
      as [(evs1 & He1 & Hin1) (evs2 & He2 & Hin2)].
    set (wc := snd (dht_capture 40 (pin d) (capture_world d w))) in *.
    assert (Habort : extends w (snd (mgos_ints_enable (capture_world d w)))
                       (EvIntsEnable :: evs1)).
    { unfold extends in *. cbn [snd mgos_ints_enable set_ints trace].
      rewrite He1. reflexivity. }
    assert (Hdone : extends w (snd (mgos_ints_enable wc))
                      (EvIntsEnable :: evs2)).
    { unfold extends in *. cbn [snd mgos_ints_enable set_ints trace].
      rewrite He2. reflexivity. }
    assert (Hstamp : extends w (snd (mg_time (snd (mgos_ints_enable wc))))
                       (EvTime (fst (mg_time (snd (mgos_ints_enable wc))))
                          :: EvIntsEnable :: evs2)).
    { unfold extends in *.
      cbn [fst snd mg_time mgos_ints_enable set_ints trace clock clock_reads].
      rewrite He2. reflexivity. }
    destruct (handshake_ok d w); cbv beta iota delta [negb].
    + destruct (fst (dht_decode (captured d w) zero_data));
        cbv beta iota delta [negb];
        [destruct (checksum_ok _)|].
      * eexists. split; [exact Hstamp|].
        split; [split; [intros _; right; right; exact Hin2 | reflexivity]|].
        split; [intros _; split; reflexivity|].
        intros Hno. exfalso. apply Hno. right. right. exact Hin2.
      * eexists. split; [exact Hdone|].
        split; [split; [intros _; right; exact Hin2 | reflexivity]|].
        split; [intros _; split; reflexivity|].
        intros Hno. exfalso. apply Hno. right. exact Hin2.
      * eexists. split; [exact Hdone|].
        split; [split; [intros _; right; exact Hin2 | reflexivity]|].
        split; [intros _; split; reflexivity|].
        intros Hno. exfalso. apply Hno. right. exact Hin2.
    + eexists. split; [exact Habort|].
      split; [split; [intros _; right; exact Hin1 | reflexivity]|].
      split; [intros _; split; reflexivity|].
      intros Hno. exfalso. apply Hno. right. exact Hin1.
Qed.

(** ** Statistics and the cache *)

(** What [dht_read] returns is the flag it leaves in the handle. *)
Lemma dht_read_result_flag d w :
  fst (fst (dht_read d w)) = last_result (snd (fst (dht_read d w))).
Proof.
  destruct (cache_hit d w) eqn:Hc.
  - rewrite (dht_read_cached d w Hc). reflexivity.
  - rewrite (dht_read_fresh d w Hc). cbv zeta.
    destruct (handshake_ok d w); cbv beta iota delta [negb]; [|reflexivity].
    destruct (fst (dht_decode (captured d w) zero_data));
      cbv beta iota delta [negb]; [|reflexivity].
    destruct (checksum_ok _); reflexivity.
Qed.

(** One call: the attempt counter always moves, the cache counter on a
    rate-limited call, the success counters on a fresh success; the
    timestamp is set on every fresh attempt. *)
Lemma dht_read_stats d w :
  let s := stats d in
  let s' := stats (snd (fst (dht_read d w))) in
  read s' = (read s + 1)%N /\
  read_success_cached s' =
    (read_success_cached s + hit_incr (is_hit (kind_of d w)))%N /\
  read_success s' =
    (read_success s + hit_incr (is_success (kind_of d w)))%N /\
  (is_success (kind_of d w) = false ->
   read_success_usecs s' = read_success_usecs s) /\
  (cache_hit d w = true -> last_read_time s' = last_read_time s) /\
  (cache_hit d w = false -> last_read_time s' = clock w (clock_reads w)).
Proof.
  cbv zeta. unfold kind_of.
  destruct (cache_hit d w) eqn:Hc.
  - rewrite (dht_read_cached d w Hc).
    cbn [fst snd stats with_stats stats_cached_incr stats_read_incr read
         read_success read_success_cached read_success_usecs last_read_time
         is_hit is_success hit_incr].
    rewrite N.add_0_r. repeat split. discriminate.
  - rewrite (dht_read_fresh d w Hc). cbv zeta.
    unfold attempt_handle.
    destruct (handshake_ok d w); cbv beta iota delta [negb];
      [destruct (fst (dht_decode (captured d w) zero_data));
       cbv beta iota delta [negb]; [destruct (checksum_ok _)|]|];
      cbn [fst snd stats with_stats with_data with_result dht_reset
           stats_success stats_set_time stats_read_incr read read_success
           read_success_cached read_success_usecs last_read_time
           is_hit is_success hit_incr];
      rewrite ?N.add_0_r; repeat split; discriminate.
Qed.

Lemma count_kind_cons f k ks :
  count_kind f (k :: ks) = (hit_incr (f k) + count_kind f ks)%N.
Proof.
  unfold count_kind. cbn [List.filter]. destruct (f k); cbn [length hit_incr]; lia.
Qed.

Lemma count_kinds_bound ks :
  (count_kind is_hit ks + count_kind is_success ks <= N.of_nat (length ks))%N.
Proof.
  induction ks as [|k ks IH]; [reflexivity|].
  rewrite !count_kind_cons. cbn [length].
  destruct k; cbn [is_hit is_success hit_incr]; lia.
Qed.

Lemma kinds_of_length : forall ws d, length (kinds_of d ws) = length ws.
Proof.
  induction ws as [|w ws IH]; intros d; [reflexivity|].
  cbn [kinds_of length]. rewrite IH. reflexivity.
Qed.

(** C5.  After one call per world of [ws], with [m] of them rate-limited
    and [s] of them fresh successes, the attempt counter has grown by the
    number of calls, the cache-hit counter by [m], the success counter by
    [s], and [s <= n - m]; a call that is not a fresh success leaves the
    success and success-time counters as they were. *)
Theorem dht_read_seq_counters d ws :
  let d' := dht_read_seq d ws in
  let n := N.of_nat (length ws) in
  let m := count_kind is_hit (kinds_of d ws) in
  let s := count_kind is_success (kinds_of d ws) in
  (read (stats d') = read (stats d) + n /\
   read_success_cached (stats d') = read_success_cached (stats d) + m /\
   read_success (stats d') = read_success (stats d) + s /\
   m <= n /\ s <= n - m)%N /\
  (forall d0 w0,
      (read (stats (snd (fst (dht_read d0 w0)))) = read (stats d0) + 1)%N /\
      (kind_of d0 w0 <> CacheHit ->
       read_success_cached (stats (snd (fst (dht_read d0 w0)))) =
       read_success_cached (stats d0)) /\
      (kind_of d0 w0 <> FreshSuccess ->
       read_success (stats (snd (fst (dht_read d0 w0)))) =
       read_success (stats d0) /\
       read_success_usecs (stats (snd (fst (dht_read d0 w0)))) =
       read_success_usecs (stats d0))).
Proof.
  cbv zeta. split.
  - pose proof (count_kinds_bound (kinds_of d ws)) as Hb.
    rewrite kinds_of_length in Hb.
    assert (Hcount :
      (read (stats (dht_read_seq d ws)) =
         read (stats d) + N.of_nat (length ws) /\
       read_success_cached (stats (dht_read_seq d ws)) =
         read_success_cached (stats d) + count_kind is_hit (kinds_of d ws) /\
       read_success (stats (dht_read_seq d ws)) =
         read_success (stats d) + count_kind is_success (kinds_of d ws))%N).
    { clear Hb. revert d.
      induction ws as [|w ws IH]; intros d.
      - cbn [dht_read_seq kinds_of length]. unfold count_kind.
        cbn [List.filter length]. lia.
      - cbn [dht_read_seq kinds_of length]. rewrite !count_kind_cons.
        destruct (IH (snd (fst (dht_read d w)))) as (H1 & H2 & H3).
        destruct (dht_read_stats d w) as (S1 & S2 & S3 & _).
        rewrite H1, H2, H3, S1, S2, S3. lia. }
    destruct Hcount as (H1 & H2 & H3).
    repeat split; try assumption; lia.
  - intros d0 w0.
    destruct (dht_read_stats d0 w0) as (S1 & S2 & S3 & S4 & _).
    split; [exact S1|]. split.
    + intros Hk. rewrite S2.
      destruct (kind_of d0 w0); cbn [is_hit hit_incr];
        [destruct Hk; reflexivity | lia | lia].
    + intros Hk. split.
      * rewrite S3.
        destruct (kind_of d0 w0); cbn [is_success hit_incr];
          [lia | destruct Hk; reflexivity | lia].
      * apply S4.
        destruct (kind_of d0 w0); [reflexivity | destruct Hk | ]; reflexivity.
Qed.

Lemma mgos_dht_get_eq q d w :
  mgos_dht_get q (Some d) w =
  ((if fst (fst (dht_read d w)) then reading_of q (snd (fst (dht_read d w)))
    else NAN,
    Some (snd (fst (dht_read d w)))),
   snd (dht_read d w)).
Proof. destruct q; reflexivity. Qed.

(** C4, as the code has it.  When the second of two queries falls under the
    rate limit (its start time less than 2 s after the timestamp the first
    one left, which is the first one's own start time if that was a fresh
    attempt), it returns the same float as the first, touches the platform
    only to read the clock, leaves buffer, flag, success counters and
    timestamp alone, and increments two counters: the cache-hit counter and
    the attempt counter. *)
Theorem cached_query_repeats (q : quantity) d w1 w2 :
  cache_hit (snd (fst (dht_read d w1))) w2 = true ->
  let '(r1, p1, _) := mgos_dht_get q (Some d) w1 in
  let '(r2, p2, w2') := mgos_dht_get q p1 w2 in
  exists d1 d2,
    p1 = Some d1 /\ p2 = Some d2 /\
    r2 = r1 /\
    w2' = snd (mg_time w2) /\
    (cache_hit d w1 = false ->
     last_read_time (stats d1) = clock w1 (clock_reads w1)) /\
    (read_success_cached (stats d2) = read_success_cached (stats d1) + 1)%N /\
    (read (stats d2) = read (stats d1) + 1)%N /\
    read_success (stats d2) = read_success (stats d1) /\
    read_success_usecs (stats d2) = read_success_usecs (stats d1) /\
    last_read_time (stats d2) = last_read_time (stats d1) /\
    data d2 = data d1 /\ last_result d2 = last_result d1.
Proof.
  intros Hhit.
  rewrite (mgos_dht_get_eq q d w1).
  set (d1 := snd (fst (dht_read d w1))) in *.
  rewrite (mgos_dht_get_eq q d1 w2).
  rewrite (dht_read_cached d1 w2 Hhit). cbn [fst snd].
  exists d1. eexists.
  split; [reflexivity|]. split; [reflexivity|].
  split.
  { rewrite (dht_read_result_flag d w1). fold d1.
    destruct (last_result d1); [|reflexivity].
    destruct q; reflexivity. }
  split; [reflexivity|].
  split.
  { intros Hc. unfold d1. apply (dht_read_stats d w1), Hc. }
  repeat split.
Qed.

(** C4 as stated fails: the attempt counter moves on the cached call too.
    A new handle is queried for the temperature twice, the sensor answering
    the first time and the clock showing one second more the second time. *)
Lemma cached_query_counts_attempt :
  ~ (forall (q : quantity) d w1 w2,
        cache_hit (snd (fst (dht_read d w1))) w2 = true ->
        let '(_, p1, _) := mgos_dht_get q (Some d) w1 in
        let '(_, p2, _) := mgos_dht_get q p1 w2 in
        option_map (fun h => read (stats h)) p2 =
        option_map (fun h => read (stats h)) p1).
Proof.
  intros H.
  specialize (H Temperature new_dht22 (answering dht22_bytes)
                (snd (dht_read new_dht22 (answering dht22_bytes)))).
  assert (Hc : cache_hit
                 (snd (fst (dht_read new_dht22 (answering dht22_bytes))))
                 (snd (dht_read new_dht22 (answering dht22_bytes))) = true)
    by (vm_compute; reflexivity).
  specialize (H Hc). vm_compute in H. discriminate H.
Qed.

(** ** The buffer stays five bytes *)

Lemma u8_range z : 0 <= u8 z < 256.
Proof. unfold u8. apply Z.mod_pos_bound. lia. Qed.

Lemma dht_decode_from_wf cycles : forall n i (data : list Z),
  length data = 5%nat -> Forall (fun b => 0 <= b < 256) data ->
  length (snd (dht_decode_from n i cycles data)) = 5%nat /\
  Forall (fun b => 0 <= b < 256) (snd (dht_decode_from n i cycles data)).
Proof.
  induction n as [|n IH]; intros i data Hlen Hall; cbn [dht_decode_from].
  - split; assumption.
  - destruct (_ || _); [split; assumption|]. cbv zeta.
    apply IH.
    + destruct (_ <? _); rewrite ?length_insert; exact Hlen.
    + destruct (_ <? _); repeat apply Forall_insert;
        try exact Hall; apply u8_range.
Qed.

Lemma zero_data_wf :
  length zero_data = 5%nat /\ Forall (fun b => 0 <= b < 256) zero_data.
Proof. split; [reflexivity|]. repeat constructor; lia. Qed.

(** [dht_read] keeps pin and variant, and keeps the buffer well formed. *)
Lemma dht_read_keeps d w :
  pin (snd (fst (dht_read d w))) = pin d /\
  type (snd (fst (dht_read d w))) = type d /\
  (dht_wf d -> dht_wf (snd (fst (dht_read d w)))).
Proof.
  destruct (cache_hit d w) eqn:Hc.
  - rewrite (dht_read_cached d w Hc). repeat split; apply H.
  - rewrite (dht_read_fresh d w Hc). cbv zeta.
    pose proof zero_data_wf as [Hz1 Hz2].
    assert (Hdec : dht_wf (with_data
                             (snd (dht_decode (captured d w) zero_data))
                             (attempt_handle d w)))
      by exact (dht_decode_from_wf (captured d w) 40 0 zero_data Hz1 Hz2).
    destruct (handshake_ok d w); cbv beta iota delta [negb];
      [destruct (fst (dht_decode (captured d w) zero_data));
       cbv beta iota delta [negb]; [destruct (checksum_ok _)|]|];
      (split; [reflexivity|]; split; [reflexivity|]; intros _;
       first [exact Hdec | exact zero_data_wf]).
Qed.

(** ** Floats *)

Lemma sf_eqb_eq a b : sf_eqb a b = true -> a = b.
Proof.
  destruct a as [s|s| |s m e], b as [t|t| |t n f]; cbn [sf_eqb];
    try discriminate; try reflexivity.
  - intros H. apply Bool.eqb_prop in H. congruence.
  - intros H. apply Bool.eqb_prop in H. congruence.
  - intros H. apply andb_prop in H as [H He]. apply andb_prop in H as [Hs Hm].
    apply Bool.eqb_prop in Hs. apply Pos.eqb_eq in Hm. apply Z.eqb_eq in He.
    congruence.
Qed.

Lemma in_byte_range b : 0 <= b < 256 -> In b byte_range.
Proof.
  intros Hb. unfold byte_range. apply in_map_iff.
  exists (Z.to_nat b). split; [lia|]. apply in_seq. lia.
Qed.

Lemma all_bytes_spec P : all_bytes P = true ->
  forall b, 0 <= b < 256 -> P b = true.
Proof.
  unfold all_bytes. intros H b Hb.
  rewrite forallb_forall in H. apply H, in_byte_range, Hb.
Qed.

Lemma all_byte_pairs_spec P : all_byte_pairs P = true ->
  forall hi lo, 0 <= hi < 256 -> 0 <= lo < 256 -> P hi lo = true.
Proof.
  unfold all_byte_pairs. intros H hi lo Hhi Hlo.
  apply (all_bytes_spec _ (all_bytes_spec _ H hi Hhi) lo Hlo).
Qed.

(** Every byte converts to the float of that integer value. *)
Lemma int_check_all : all_bytes int_check = true.
Proof. vm_cast_no_check (eq_refl true). Qed.

(** For all 65536 pairs of bytes the arithmetic of lines 162-166 gives the
    binary32 nearest to the exact tenth, with the sign of bit 7. *)
Lemma temp_check_all : all_byte_pairs temp_check = true.
Proof. vm_cast_no_check (eq_refl true). Qed.

(** Likewise for lines 179-182. *)
Lemma humidity_check_all : all_byte_pairs humidity_check = true.
Proof. vm_cast_no_check (eq_refl true). Qed.

Lemma wf_byte d (i : nat) : dht_wf d -> (i < 5)%nat -> 0 <= data d !!! i < 256.
Proof.
  intros [Hlen Hall] Hi. rewrite Forall_lookup_total in Hall.
  apply Hall. lia.
Qed.

(** The conversions read two bytes of the buffer and the variant. *)
Lemma temp_of_probe d :
  is_DHT11 (type d) = false ->
  temp_of d = temp_of (probe DHT22 0 0 (data d !!! 2%nat) (data d !!! 3%nat)).
Proof. intros H. unfold temp_of. rewrite H. reflexivity. Qed.

Lemma humidity_of_probe d :
  is_DHT11 (type d) = false ->
  humidity_of d =
  humidity_of (probe DHT22 (data d !!! 0%nat) (data d !!! 1%nat) 0 0).
Proof. intros H. unfold humidity_of. rewrite H. reflexivity. Qed.

Lemma not_DHT11 t : t <> DHT11 ->
  is_DHT11 t = false /\
  (forall a b, temp_spec t a b = temp_spec DHT22 a b) /\
  (forall a b, humidity_spec t a b = humidity_spec DHT22 a b).
Proof. destruct t; intros H; try (destruct H; reflexivity); repeat split. Qed.

Lemma int_value b : 0 <= b < 256 ->
  exists v, sf_value (f32_of_int b) = Some v /\ (v == inject_Z b)%Q.
Proof.
  intros Hb. pose proof (all_bytes_spec _ int_check_all b Hb) as H.
  unfold int_check in H.
  destruct (sf_value (f32_of_int b)) as [v|]; [|discriminate H].
  exists v. split; [reflexivity|]. apply Qeq_bool_iff, H.
Qed.

(** C6.  After a successful read the temperature query returns, for the
    DHT11 variant, the float whose value is the integer byte2; for the
    other variants the binary32 nearest to ((byte2 & 0x7F) * 256 + byte3)
    / 10, negative exactly when bit 7 of byte2 is set.  With byte2 = 0x80
    and byte3 = 0x19 that is -2.5. *)
Theorem mgos_dht_get_temp_value d w :
  dht_wf d ->
  fst (fst (dht_read d w)) = true ->
  let '(t, p', _) := mgos_dht_get_temp (Some d) w in
  exists d',
    p' = Some d' /\ d' = snd (fst (dht_read d w)) /\
    let b2 := data d' !!! 2%nat in
    let b3 := data d' !!! 3%nat in
    (type d' = DHT11 ->
     t = f32_of_int b2 /\
     exists v, sf_value t = Some v /\ (v == inject_Z b2)%Q) /\
    (type d' <> DHT11 ->
     t = temp_spec (type d') b2 b3 /\
     near32 (sf_value t) (temp_exact b2 b3) = true /\
     sf_negative t = Z.testbit b2 7) /\
    (type d' <> DHT11 -> b2 = 0x80 -> b3 = 0x19 ->
     exists v, sf_value t = Some v /\ (v == - (5 # 2))%Q).
Proof.
  intros Hwf Hok.
  rewrite mgos_dht_get_temp_eq. rewrite Hok.
  set (d' := snd (fst (dht_read d w))).
  assert (Hwf' : dht_wf d') by (apply (dht_read_keeps d w), Hwf).
  exists d'. split; [reflexivity|]. split; [reflexivity|]. cbv zeta.
  clearbody d'.
  pose proof (wf_byte d' 2 Hwf' ltac:(lia)) as H2.
  pose proof (wf_byte d' 3 Hwf' ltac:(lia)) as H3.
  split; [|split].
  - intros Ht. unfold temp_of. rewrite Ht. cbn [is_DHT11].
    split; [reflexivity|]. apply int_value, H2.
  - intros Ht. destruct (not_DHT11 _ Ht) as (Hn & Hspec & _).
    rewrite (temp_of_probe d' Hn), Hspec.
    pose proof (all_byte_pairs_spec _ temp_check_all _ _ H2 H3) as Hc.
    unfold temp_check in Hc. cbv zeta in Hc.
    apply andb_prop in Hc as [Hc Hsign]. apply andb_prop in Hc as [Heq Hnear].
    split; [apply sf_eqb_eq, Heq|]. split; [exact Hnear|].
    apply Bool.eqb_prop, Hsign.
  - intros Ht Hb2 Hb3. destruct (not_DHT11 _ Ht) as (Hn & _).
    rewrite (temp_of_probe d' Hn), Hb2, Hb3.
    eexists. split; vm_compute; reflexivity.
Qed.

(** C7.  After a successful read the humidity query returns, for the DHT11
    variant, the float whose value is byte0; for the other variants the
    binary32 nearest to (byte0 * 256 + byte1) / 10.  A DHT11 buffer of
    0x32, 0x00, 0x19, 0x00, 0x4B reads as humidity 50 and temperature 25. *)
Theorem mgos_dht_get_humidity_value d w :
  dht_wf d ->
  fst (fst (dht_read d w)) = true ->
  let '(h, p', _) := mgos_dht_get_humidity (Some d) w in
  exists d',
    p' = Some d' /\ d' = snd (fst (dht_read d w)) /\
    let b0 := data d' !!! 0%nat in
    let b1 := data d' !!! 1%nat in
    (type d' = DHT11 ->
     h = f32_of_int b0 /\
     exists v, sf_value h = Some v /\ (v == inject_Z b0)%Q) /\
    (type d' <> DHT11 ->
     h = humidity_spec (type d') b0 b1 /\
     near32 (sf_value h) (humidity_exact b0 b1) = true) /\
    (type d' = DHT11 -> data d' = [0x32; 0x00; 0x19; 0x00; 0x4B] ->
     (exists v, sf_value h = Some v /\ (v == 50)%Q) /\
     (exists v, sf_value (temp_of d') = Some v /\ (v == 25)%Q)).
Proof.
  intros Hwf Hok.
  rewrite mgos_dht_get_humidity_eq. rewrite Hok.
  set (d' := snd (fst (dht_read d w))).
  assert (Hwf' : dht_wf d') by (apply (dht_read_keeps d w), Hwf).
  exists d'. split; [reflexivity|]. split; [reflexivity|]. cbv zeta.
  clearbody d'.
  pose proof (wf_byte d' 0 Hwf' ltac:(lia)) as H0.
  pose proof (wf_byte d' 1 Hwf' ltac:(lia)) as H1.
  split; [|split].
  - intros Ht. unfold humidity_of. rewrite Ht. cbn [is_DHT11].
    split; [reflexivity|]. apply int_value, H0.
  - intros Ht. destruct (not_DHT11 _ Ht) as (Hn & _ & Hspec).
    rewrite (humidity_of_probe d' Hn), Hspec.
    pose proof (all_byte_pairs_spec _ humidity_check_all _ _ H0 H1) as Hc.
    unfold humidity_check in Hc. cbv zeta in Hc.
    apply andb_prop in Hc as [Heq Hnear].
    split; [apply sf_eqb_eq, Heq | exact Hnear].
  - intros Ht Hd. unfold humidity_of, temp_of. rewrite Ht, Hd.
    split; eexists; split; vm_compute; reflexivity.
Qed.

(** ** The claims on the test benches *)

Lemma dht_decode_bits_witness :
  length cycles_ones = 80%nat /\
  length zero_data = 5%nat /\
  Forall (fun c => c <> 0) cycles_ones /\
  dht_decode cycles_ones zero_data = (true, [255; 255; 255; 255; 255]).
Proof.
  assert (H1 : length cycles_ones = 80%nat) by reflexivity.
  assert (H2 : length zero_data = 5%nat) by reflexivity.
  assert (H3 : Forall (fun c => c <> 0) cycles_ones)
    by (apply (bool_decide_unpack _); vm_compute; exact I).
  split; [exact H1|]. split; [exact H2|]. split; [exact H3|].
  destruct (dht_decode_bits cycles_ones zero_data H1 H2 H3)
    as (data' & Hrun & _ & _ & _ & Hones & _).
  rewrite Hrun, Hones; [reflexivity|].
  intros i Hi.
  do 40 (destruct i as [|i]; [vm_compute; reflexivity|]). lia.
Defined.

Lemma dht_read_checksum_witness :
  cache_hit new_dht11 (answering bad_sum_bytes) = false /\
  handshake_ok new_dht11 (answering bad_sum_bytes) = true /\
  Forall (fun c => c <> 0) (captured new_dht11 (answering bad_sum_bytes)) /\
  let '(r, d', _) := dht_read new_dht11 (answering bad_sum_bytes) in
  let b := fun i : nat => data d' !!! i in
  data d' =
    snd (dht_decode (captured new_dht11 (answering bad_sum_bytes)) zero_data) /\
  (r = true <-> b 4%nat = (b 0%nat + b 1%nat + b 2%nat + b 3%nat) mod 256) /\
  (b 4%nat <> (b 0%nat + b 1%nat + b 2%nat + b 3%nat) mod 256 ->
   r = false /\ last_result d' = false /\
   read_success (stats d') = read_success (stats new_dht11) /\
   read_success_usecs (stats d') = read_success_usecs (stats new_dht11)).
Proof.
  assert (H1 : cache_hit new_dht11 (answering bad_sum_bytes) = false)
    by (vm_compute; reflexivity).
  assert (H2 : handshake_ok new_dht11 (answering bad_sum_bytes) = true)
    by (vm_compute; reflexivity).
  assert (H3 : Forall (fun c => c <> 0)
                 (captured new_dht11 (answering bad_sum_bytes)))
    by (apply (bool_decide_unpack _); vm_compute; exact I).
  split; [exact H1|]. split; [exact H2|]. split; [exact H3|].
  exact (dht_read_checksum new_dht11 (answering bad_sum_bytes) H1 H2 H3).
Defined.

Lemma dht_read_handshake_failure_witness :
  cache_hit used_dht22 dead_line = false /\
  (fst (dht_wait (pin used_dht22) 1 90
          (handshake_world used_dht22 dead_line)) = 0 \/
   fst (dht_wait (pin used_dht22) 0 90
          (snd (dht_wait (pin used_dht22) 1 90
                  (handshake_world used_dht22 dead_line)))) = 0) /\
  let '(r, d', _) := dht_read used_dht22 dead_line in
  r = false /\ last_result d' = false /\ data d' = zero_data.
Proof.
  assert (H1 : cache_hit used_dht22 dead_line = false)
    by (vm_compute; reflexivity).
  assert (H2 : fst (dht_wait (pin used_dht22) 1 90
                      (handshake_world used_dht22 dead_line)) = 0 \/
               fst (dht_wait (pin used_dht22) 0 90
                      (snd (dht_wait (pin used_dht22) 1 90
                              (handshake_world used_dht22 dead_line)))) = 0)
    by (left; vm_compute; reflexivity).
  split; [exact H1|]. split; [exact H2|].
  exact (dht_read_handshake_failure used_dht22 dead_line H1 H2).
Defined.

Lemma cached_query_repeats_witness :
  cache_hit (snd (fst (dht_read new_dht22 (answering dht22_bytes))))
            (snd (dht_read new_dht22 (answering dht22_bytes))) = true /\
  let '(r1, p1, _) :=
    mgos_dht_get Temperature (Some new_dht22) (answering dht22_bytes) in
  let '(r2, p2, w2') :=
    mgos_dht_get Temperature p1
                 (snd (dht_read new_dht22 (answering dht22_bytes))) in
  exists d1 d2,
    p1 = Some d1 /\ p2 = Some d2 /\
    r2 = r1 /\
    w2' = snd (mg_time (snd (dht_read new_dht22 (answering dht22_bytes)))) /\
    (cache_hit new_dht22 (answering dht22_bytes) = false ->
     last_read_time (stats d1) =
     clock (answering dht22_bytes) (clock_reads (answering dht22_bytes))) /\
    (read_success_cached (stats d2) = read_success_cached (stats d1) + 1)%N /\
    (read (stats d2) = read (stats d1) + 1)%N /\
    read_success (stats d2) = read_success (stats d1) /\
    read_success_usecs (stats d2) = read_success_usecs (stats d1) /\
    last_read_time (stats d2) = last_read_time (stats d1) /\
    data d2 = data d1 /\ last_result d2 = last_result d1.
Proof.
  assert (H1 : cache_hit
                 (snd (fst (dht_read new_dht22 (answering dht22_bytes))))
                 (snd (dht_read new_dht22 (answering dht22_bytes))) = true)
    by (vm_compute; reflexivity).
  split; [exact H1|].
  exact (cached_query_repeats Temperature new_dht22 (answering dht22_bytes)
           (snd (dht_read new_dht22 (answering dht22_bytes))) H1).
Defined.

Lemma mgos_dht_get_temp_value_witness :
  dht_wf new_dht22 /\
  fst (fst (dht_read new_dht22 (answering dht22_bytes))) = true /\
  let '(t, p', _) := mgos_dht_get_temp (Some new_dht22) (answering dht22_bytes) in
  exists d',
    p' = Some d' /\
    d' = snd (fst (dht_read new_dht22 (answering dht22_bytes))) /\
    let b2 := data d' !!! 2%nat in
    let b3 := data d' !!! 3%nat in
    (type d' = DHT11 ->
     t = f32_of_int b2 /\
     exists v, sf_value t = Some v /\ (v == inject_Z b2)%Q) /\
    (type d' <> DHT11 ->
     t = temp_spec (type d') b2 b3 /\
     near32 (sf_value t) (temp_exact b2 b3) = true /\
     sf_negative t = Z.testbit b2 7) /\
    (type d' <> DHT11 -> b2 = 0x80 -> b3 = 0x19 ->
     exists v, sf_value t = Some v /\ (v == - (5 # 2))%Q).
Proof.
  assert (H1 : dht_wf new_dht22)
    by (split; [reflexivity | repeat constructor; lia]).
  assert (H2 : fst (fst (dht_read new_dht22 (answering dht22_bytes))) = true)
    by (vm_compute; reflexivity).
  split; [exact H1|]. split; [exact H2|].
  exact (mgos_dht_get_temp_value new_dht22 (answering dht22_bytes) H1 H2).
Defined.

Lemma mgos_dht_get_humidity_value_witness :
  dht_wf new_dht11 /\
  fst (fst (dht_read new_dht11 (answering dht11_bytes))) = true /\
  let '(h, p', _) :=
    mgos_dht_get_humidity (Some new_dht11) (answering dht11_bytes) in
  exists d',
    p' = Some d' /\
    d' = snd (fst (dht_read new_dht11 (answering dht11_bytes))) /\
    let b0 := data d' !!! 0%nat in
    let b1 := data d' !!! 1%nat in
    (type d' = DHT11 ->
     h = f32_of_int b0 /\
     exists v, sf_value h = Some v /\ (v == inject_Z b0)%Q) /\
    (type d' <> DHT11 ->
     h = humidity_spec (type d') b0 b1 /\
     near32 (sf_value h) (humidity_exact b0 b1) = true) /\
    (type d' = DHT11 -> data d' = [0x32; 0x00; 0x19; 0x00; 0x4B] ->
     (exists v, sf_value h = Some v /\ (v == 50)%Q) /\
     (exists v, sf_value (temp_of d') = Some v /\ (v == 25)%Q)).
Proof.
  assert (H1 : dht_wf new_dht11)
    by (split; [reflexivity | repeat constructor; lia]).
  assert (H2 : fst (fst (dht_read new_dht11 (answering dht11_bytes))) = true)
    by (vm_compute; reflexivity).
  split; [exact H1|]. split; [exact H2|].
  exact (mgos_dht_get_humidity_value new_dht11 (answering dht11_bytes) H1 H2).
Defined.

Lemma dht_read_slot_timeout_witness :
  cache_hit new_dht22 stuck_in_last_bit = false /\
  handshake_ok new_dht22 stuck_in_last_bit = true /\
  (79 < 80)%nat /\
  captured new_dht22 stuck_in_last_bit !!! 79%nat = 0 /\
  let '(r, d', _) := dht_read new_dht22 stuck_in_last_bit in
  r = false /\ last_result d' = false /\
  read_success (stats d') = read_success (stats new_dht22) /\
  read_success_usecs (stats d') = read_success_usecs (stats new_dht22) /\
  fst (fst (mgos_dht_get_temp (Some new_dht22) stuck_in_last_bit)) = NAN /\
  fst (fst (mgos_dht_get_humidity (Some new_dht22) stuck_in_last_bit)) = NAN /\
  (forall l w2,
      fst (fst (mgos_dht_get_temp (Some (with_data l d')) w2)) =
      fst (fst (mgos_dht_get_temp (Some d') w2)) /\
      fst (fst (mgos_dht_get_humidity (Some (with_data l d')) w2)) =
      fst (fst (mgos_dht_get_humidity (Some d') w2))) /\
  data d' = snd (dht_decode (captured new_dht22 stuck_in_last_bit) zero_data) /\
  exists i0 : nat,
    (i0 <= 79 / 2)%nat /\
    (forall j, (j < 2 * i0)%nat ->
       captured new_dht22 stuck_in_last_bit !!! j <> 0) /\
    (captured new_dht22 stuck_in_last_bit !!! (2 * i0)%nat = 0 \/
     captured new_dht22 stuck_in_last_bit !!! (2 * i0 + 1)%nat = 0) /\
    length (data d') = 5%nat /\
    (forall j, (j < i0 / 8)%nat ->
       data d' !!! j =
       push_bits (captured new_dht22 stuck_in_last_bit) 0 (8 * j) 8) /\
    data d' !!! (i0 / 8)%nat =
      push_bits (captured new_dht22 stuck_in_last_bit) 0
                (8 * (i0 / 8)) (i0 mod 8) /\
    (forall j, (i0 / 8 < j < 5)%nat -> data d' !!! j = 0).
Proof.
  assert (H1 : cache_hit new_dht22 stuck_in_last_bit = false)
    by (vm_compute; reflexivity).
  assert (H2 : handshake_ok new_dht22 stuck_in_last_bit = true)
    by (vm_compute; reflexivity).
  assert (H3 : (79 < 80)%nat) by lia.
  assert (H4 : captured new_dht22 stuck_in_last_bit !!! 79%nat = 0)
    by (vm_compute; reflexivity).
  split; [exact H1|]. split; [exact H2|]. split; [exact H3|].
  split; [exact H4|].
  exact (dht_read_slot_timeout new_dht22 stuck_in_last_bit 79 H1 H2 H3 H4).
Defined.

Lemma dht_wait_zero_ambiguous_witness :
  0 <= 90 < 2 ^ 32 /\
  0 <= fst (dht_wait 4 1 90 stuck_high) <= 90 /\
  ((forall k, (k <= Z.to_nat 90)%nat ->
      Z.b2z (pin_level stuck_high 4 (polls stuck_high + k)) <> 1) ->
   fst (dht_wait 4 1 90 stuck_high) = 0) /\
  (Z.b2z (pin_level stuck_high 4 (polls stuck_high)) = 1 ->
   fst (dht_wait 4 1 90 stuck_high) = 0) /\
  (forall d w0,
      cache_hit d w0 = false ->
      fst (dht_wait (pin d) 1 90 (handshake_world d w0)) = 0 \/
      fst (dht_wait (pin d) 0 90
             (snd (dht_wait (pin d) 1 90 (handshake_world d w0)))) = 0 \/
      (handshake_ok d w0 = true /\ 0 ∈ captured d w0) ->
      fst (fst (dht_read d w0)) = false).
Proof.
  assert (H1 : 0 <= 90 < 2 ^ 32) by lia.
  split; [exact H1|].
  exact (dht_wait_zero_ambiguous 4 1 90 stuck_high H1).
Defined.

(** ** dht_wait as a measurement *)

Lemma dht_wait_result p lvl usecs w :
  0 <= usecs < 2 ^ 32 ->
  let r := dht_wait p lvl usecs w in
  (exists k : nat,
      (k <= Z.to_nat usecs)%nat /\
      (forall i, (i < k)%nat -> Z.b2z (pin_level w p (polls w + i)) <> lvl) /\
      Z.b2z (pin_level w p (polls w + k)) = lvl /\
      fst r = Z.of_nat k /\ polls (snd r) = (polls w + k + 1)%nat)
  \/
  ((forall i, (i <= Z.to_nat usecs)%nat ->
      Z.b2z (pin_level w p (polls w + i)) <> lvl) /\
   fst r = 0 /\ polls (snd r) = (polls w + Z.to_nat usecs + 1)%nat).
Proof.
  intros Hu.
  pose proof (dht_wait_loop_result (S (Z.to_nat usecs)) p lvl usecs 0 w
                ltac:(lia) ltac:(lia)) as H.
  replace (usecs - 0) with usecs in H by lia.
  specialize (H ltac:(lia)). cbv zeta in H.
  exact H.
Qed.

(** X1.  When the pin first shows the level at the [k]-th poll after the
    call ([k <= usecs]), [dht_wait] returns [k] and has polled [k + 1]
    times; when the level is not seen in [usecs + 1] polls it returns 0
    after exactly those polls. *)
Theorem dht_wait_measures p lvl usecs w (k : nat) :
  0 <= usecs < 2 ^ 32 ->
  (k <= Z.to_nat usecs)%nat ->
  (forall i, (i < k)%nat -> Z.b2z (pin_level w p (polls w + i)) <> lvl) ->
  (Z.b2z (pin_level w p (polls w + k)) = lvl ->
   fst (dht_wait p lvl usecs w) = Z.of_nat k /\
   polls (snd (dht_wait p lvl usecs w)) = (polls w + k + 1)%nat) /\
  (k = Z.to_nat usecs ->
   Z.b2z (pin_level w p (polls w + k)) <> lvl ->
   fst (dht_wait p lvl usecs w) = 0 /\
   polls (snd (dht_wait p lvl usecs w)) = (polls w + Z.to_nat usecs + 1)%nat).
Proof.
  intros Hu Hk Hbefore.
  destruct (dht_wait_result p lvl usecs w Hu)
    as [(k' & Hk' & Hb' & Hat' & Hr & Hp)|(Hall & Hr & Hp)].
  - split.
    + intros Hat.
      assert (k' = k).
      { destruct (Nat.lt_trichotomy k' k) as [Hlt|[Heq|Hgt]]; [|exact Heq|].
        - destruct (Hbefore k' Hlt Hat').
        - destruct (Hb' k Hgt Hat). }
      subst k'. split; assumption.
    + intros -> Hne. exfalso.
      destruct (Nat.eq_dec k' (Z.to_nat usecs)) as [->|Hneq].
      * exact (Hne Hat').
      * apply (Hbefore k'); [lia | exact Hat'].
  - split.
    + intros Hat. destruct (Hall k Hk Hat).
    + intros _ _. split; assumption.
Qed.

Lemma dht_wait_loop_polls_only p lvl usecs : forall fuel t w,
  let w' := snd (dht_wait_loop fuel p lvl usecs t w) in
  pin_level w' = pin_level w /\ clock w' = clock w /\
  clock_reads w' = clock_reads w /\ gpio_ok w' = gpio_ok w /\
  ints_enabled w' = ints_enabled w /\
  exists evs, extends w w' evs /\ forallb (is_poll_event p) evs = true.
Proof.
  induction fuel as [|fuel IH]; intros t w; cbv zeta.
  - do 5 (split; [reflexivity|]). exists []. split; reflexivity.
  - rewrite dht_wait_loop_step. cbv zeta.
    assert (Hone : forallb (is_poll_event p)
                     [EvRead p (pin_level w p (polls w))] = true).
    { cbn [forallb is_poll_event]. rewrite Z.eqb_refl. reflexivity. }
    destruct (negb _); [destruct (t =? usecs)|].
    + do 5 (split; [reflexivity|]).
      exists [EvRead p (pin_level w p (polls w))].
      split; [reflexivity | exact Hone].
    + destruct (IH (u32 (t + 1))
                   (snd (mgos_usleep 1 (snd (mgos_gpio_read p w)))))
        as (H1 & H2 & H3 & H4 & H5 & evs & He & Hf).
      rewrite H1, H2, H3, H4, H5.
      do 5 (split; [reflexivity|]).
      exists (evs ++ [EvUsleep 1; EvRead p (pin_level w p (polls w))]).
      split.
      * unfold extends in *. rewrite He, <- app_assoc. reflexivity.
      * rewrite forallb_app, Hf. cbn [forallb is_poll_event andb].
        rewrite !Z.eqb_refl. reflexivity.
    + do 5 (split; [reflexivity|]).
      exists [EvRead p (pin_level w p (polls w))].
      split; [reflexivity | exact Hone].
Qed.

(** X2.  A busy wait only polls its pin and sleeps 1 us at a time: it
    leaves the interrupt mask, the clock and the pin configuration alone,
    and every event it causes is a read of that pin or a 1 us sleep. *)
Theorem dht_wait_only_polls p lvl usecs w :
  let w' := snd (dht_wait p lvl usecs w) in
  ints_enabled w' = ints_enabled w /\
  clock_reads w' = clock_reads w /\
  exists evs, extends w w' evs /\ forallb (is_poll_event p) evs = true.
Proof.
  cbv zeta.
  destruct (dht_wait_loop_polls_only p lvl usecs (S (Z.to_nat usecs)) 0 w)
    as (_ & _ & H3 & _ & H5 & Hev).
  split; [exact H5|]. split; [exact H3|]. exact Hev.
Qed.

(** ** Polling: how far a read can go *)

Lemma polling_refl p w : polling p 0 w w.
Proof.
  unfold polling. do 5 (split; [reflexivity|]). split; [lia|].
  exists []. split; reflexivity.
Qed.

Lemma polling_trans p n1 n2 w1 w2 w3 :
  polling p n1 w1 w2 -> polling p n2 w2 w3 -> polling p (n1 + n2) w1 w3.
Proof.
  intros (A1 & A2 & A3 & A4 & A5 & A6 & ea & Ha & Hfa)
         (B1 & B2 & B3 & B4 & B5 & B6 & eb & Hb & Hfb).
  unfold polling.
  rewrite B1, B2, B3, B4, B5, A1, A2, A3, A4, A5.
  do 5 (split; [reflexivity|]). split; [lia|].
  exists (eb ++ ea). split.
  - exact (extends_trans _ _ _ _ _ Ha Hb).
  - rewrite forallb_app, Hfa, Hfb. reflexivity.
Qed.

Lemma polling_weaken p n m w w' :
  (n <= m)%nat -> polling p n w w' -> polling p m w w'.
Proof.
  intros Hnm (A1 & A2 & A3 & A4 & A5 & A6 & Hev).
  unfold polling. do 5 (split; [assumption|]). split; [lia | exact Hev].
Qed.

Lemma dht_wait_polling p lvl usecs w :
  0 <= usecs < 2 ^ 32 ->
  0 <= fst (dht_wait p lvl usecs w) <= usecs /\
  polling p (Z.to_nat usecs + 1) w (snd (dht_wait p lvl usecs w)).
Proof.
  intros Hu.
  destruct (dht_wait_loop_polls_only p lvl usecs (S (Z.to_nat usecs)) 0 w)
    as (H1 & H2 & H3 & H4 & H5 & Hev).
  fold (dht_wait p lvl usecs w) in H1, H2, H3, H4, H5, Hev.
  assert (Hr : 0 <= fst (dht_wait p lvl usecs w) <= usecs /\
               (polls w <= polls (snd (dht_wait p lvl usecs w))
                <= polls w + (Z.to_nat usecs + 1))%nat).
  { destruct (dht_wait_result p lvl usecs w Hu)
      as [(k & Hk & _ & _ & Hr & Hp)|(_ & Hr & Hp)]; rewrite Hr, Hp; lia. }
  destruct Hr as [Hr Hp]. split; [exact Hr|].
  unfold polling. do 5 (split; [assumption|]). split; assumption.
Qed.

Lemma dht_handshake_polling p w :
  polling p (2 * 91) w (snd (dht_handshake p w)).
Proof.
  unfold dht_handshake, bind. cbv zeta.
  destruct (dht_wait_polling p 1 90 w ltac:(lia)) as [_ P1].
  destruct (fst (dht_wait p 1 90 w) =? 0).
  - eapply polling_weaken; [|exact P1]. lia.
  - destruct (dht_wait_polling p 0 90 (snd (dht_wait p 1 90 w)) ltac:(lia))
      as [_ P2].
    exact (polling_trans _ _ _ _ _ _ P1 P2).
Qed.

Lemma dht_capture_polling p : forall n w,
  length (fst (dht_capture n p w)) = (2 * n)%nat /\
  Forall (fun c => 0 <= c <= 500) (fst (dht_capture n p w)) /\
  polling p (n * (2 * 501)) w (snd (dht_capture n p w)).
Proof.
  induction n as [|n IH]; intros w.
  - split; [reflexivity|]. split; [constructor | apply polling_refl].
  - cbn [dht_capture]. unfold bind at 1 2 3. cbv zeta. cbn [fst snd ret].
    destruct (dht_wait_polling p 1 500 w ltac:(lia)) as [R1 P1].
    destruct (dht_wait_polling p 0 500 (snd (dht_wait p 1 500 w)) ltac:(lia))
      as [R2 P2].
    destruct (IH (snd (dht_wait p 0 500 (snd (dht_wait p 1 500 w)))))
      as (Hl & Hf & P3).
    split; [cbn [length]; rewrite Hl; lia|].
    split; [repeat (constructor; [assumption|]); exact Hf|].
    pose proof (polling_trans _ _ _ _ _ _ (polling_trans _ _ _ _ _ _ P1 P2) P3)
      as P.
    eapply polling_weaken; [|exact P]. lia.
Qed.

(** X3.  The capture loop always fills all 80 slots, each with a duration
    between 0 and 500, and makes at most 80 * 501 polls of the pin and
    nothing else: the decode loop never reads an unwritten slot. *)
Theorem dht_capture_fills_cycles p w :
  length (fst (dht_capture 40 p w)) = 80%nat /\
  Forall (fun c => 0 <= c <= 500) (fst (dht_capture 40 p w)) /\
  polling p (80 * 501) w (snd (dht_capture 40 p w)).
Proof.
  destruct (dht_capture_polling p 40 w) as (Hl & Hf & P).
  split; [exact Hl|]. split; [exact Hf|].
  eapply polling_weaken; [|exact P]. lia.
Qed.

Lemma poll_event_own_pin p evs :
  forallb (is_poll_event p) evs = true ->
  forallb (own_pin_event p) evs = true.
Proof.
  induction evs as [|e evs IH]; [reflexivity|].
  cbn [forallb]. intros H. apply andb_prop in H as [He Hevs].
  rewrite (IH Hevs), andb_true_r.
  destruct e; cbn [is_poll_event own_pin_event] in *;
    try discriminate; try reflexivity; exact He.
Qed.

(** The platform as a fresh attempt leaves it when the handshake is over
    and when the capture loop is over. *)
Lemma fresh_stages_platform d w :
  (exists evs,
      extends w (capture_world d w) evs /\
      forallb (own_pin_event (pin d)) evs = true /\
      (polls w <= polls (capture_world d w) <= polls w + 2 * 91)%nat) /\
  (exists evs,
      extends w (snd (dht_capture 40 (pin d) (capture_world d w))) evs /\
      forallb (own_pin_event (pin d)) evs = true /\
      (polls w <= polls (snd (dht_capture 40 (pin d) (capture_world d w)))
       <= polls w + max_polls)%nat).
Proof.
  unfold capture_world.
  pose proof (handshake_world_trace d w) as H0.
  destruct (handshake_world_polls d w) as [Hp0 _].
  destruct (dht_handshake_polling (pin d) (handshake_world d w))
    as (_ & _ & _ & _ & _ & Hp1 & evs1 & H1 & Hf1).
  destruct (dht_capture_polling (pin d) 40
              (snd (dht_handshake (pin d) (handshake_world d w))))
    as (_ & _ & _ & _ & _ & _ & _ & Hp2 & evs2 & H2 & Hf2).
  pose proof (extends_trans _ _ _ _ _ H0 H1) as H01.
  pose proof (extends_trans _ _ _ _ _ H01 H2) as H012.
  apply poll_event_own_pin in Hf1, Hf2.
  assert (Hf0 : forallb (own_pin_event (pin d))
                  [EvUsleep 40; EvSetPull (pin d) MGOS_GPIO_PULL_UP;
                   EvSetMode (pin d) MGOS_GPIO_MODE_INPUT; EvIntsDisable;
                   (if is_ITEAD_SI7021 (type d)
                    then EvUsleep 500 else EvMsleep 18);
                   EvWrite (pin d) 0;
                   EvSetMode (pin d) MGOS_GPIO_MODE_OUTPUT; EvMsleep 10;
                   EvSetPull (pin d) MGOS_GPIO_PULL_UP;
                   EvSetMode (pin d) MGOS_GPIO_MODE_INPUT;
                   EvTime (clock w (clock_reads w))] = true).
  { cbn [forallb own_pin_event]. rewrite !Z.eqb_refl.
    destruct (is_ITEAD_SI7021 (type d)); reflexivity. }
  split; eexists; (split; [eassumption|]); split.
  - rewrite forallb_app, Hf1, Hf0. reflexivity.
  - lia.
  - rewrite !forallb_app, Hf2, Hf1, Hf0. reflexivity.
  - unfold max_polls. lia.
Qed.

(** Where a fresh attempt leaves the platform: after the abort of line
    96, after line 108, or after the clock query of line 130. *)
Lemma dht_read_fresh_world d w :
  cache_hit d w = false ->
  let wk := snd (dht_capture 40 (pin d) (capture_world d w)) in
  snd (dht_read d w) = snd (mgos_ints_enable (capture_world d w)) \/
  snd (dht_read d w) = snd (mgos_ints_enable wk) \/
  snd (dht_read d w) = snd (mg_time (snd (mgos_ints_enable wk))).
Proof.
  intros Hc. rewrite (dht_read_fresh d w Hc). cbv zeta.
  destruct (handshake_ok d w); cbv beta iota delta [negb];
    [destruct (fst (dht_decode (captured d w) zero_data));
     cbv beta iota delta [negb]; [destruct (checksum_ok _)|]|];
    cbv beta iota delta [snd].
  - right. right. reflexivity.
  - right. left. reflexivity.
  - right. left. reflexivity.
  - left. reflexivity.
Qed.

Lemma ints_enable_world w :
  polls (snd (mgos_ints_enable w)) = polls w /\
  trace (snd (mgos_ints_enable w)) = EvIntsEnable :: trace w.
Proof. split; reflexivity. Qed.

Lemma mg_time_world w :
  polls (snd (mg_time w)) = polls w /\
  trace (snd (mg_time w)) = EvTime (clock w (clock_reads w)) :: trace w.
Proof. split; reflexivity. Qed.

(** What one call does to the platform, on every path. *)
Lemma dht_read_platform d w :
  exists evs,
    extends w (snd (dht_read d w)) evs /\
    forallb (own_pin_event (pin d)) evs = true /\
    (polls w <= polls (snd (dht_read d w)) <= polls w + max_polls)%nat /\
    (cache_hit d w = true ->
     evs = [EvTime (clock w (clock_reads w))] /\
     polls (snd (dht_read d w)) = polls w).
Proof.
  destruct (cache_hit d w) eqn:Hc.
  - rewrite (dht_read_cached d w Hc).
    exists [EvTime (clock w (clock_reads w))].
    split; [reflexivity|]. split; [reflexivity|].
    split; [cbn [snd mg_time polls]; lia|].
    intros _. split; reflexivity.
  - destruct (fresh_stages_platform d w)
      as [(evs1 & He1 & Hf1 & Hp1) (evs2 & He2 & Hf2 & Hp2)].
    pose proof (dht_read_fresh_world d w Hc) as Hw. cbv zeta in Hw.
    set (wc := capture_world d w) in *.
    set (wk := snd (dht_capture 40 (pin d) wc)) in *.
    clearbody wk wc.
    unfold extends in *.
    destruct Hw as [Hw|[Hw|Hw]]; rewrite Hw.
    + destruct (ints_enable_world wc) as [Hp Ht]. rewrite Hp, Ht, He1.
      exists (EvIntsEnable :: evs1).
      split; [reflexivity|]. split; [exact Hf1|].
      split; [unfold max_polls; lia | discriminate].
    + destruct (ints_enable_world wk) as [Hp Ht]. rewrite Hp, Ht, He2.
      exists (EvIntsEnable :: evs2).
      split; [reflexivity|]. split; [exact Hf2|].
      split; [exact Hp2 | discriminate].
    + destruct (mg_time_world (snd (mgos_ints_enable wk))) as [Hp' Ht'].
      destruct (ints_enable_world wk) as [Hp Ht].
      rewrite Hp', Ht', Hp, Ht, He2.
      eexists (_ :: EvIntsEnable :: evs2).
      split; [reflexivity|]. split; [exact Hf2|].
      split; [exact Hp2 | discriminate].
Qed.

(** X4.  One call polls the pin at most [2 * 91 + 80 * 501] times, whatever
    the line does; a rate-limited call does not poll at all. *)
Theorem dht_read_polls_bounded d w :
  (polls w <= polls (snd (dht_read d w)) <= polls w + max_polls)%nat /\
  (cache_hit d w = true -> polls (snd (dht_read d w)) = polls w).
Proof.
  destruct (dht_read_platform d w) as (evs & _ & _ & Hp & Hc).
  split; [exact Hp|]. intros H. apply (Hc H).
Qed.

(** X5.  Every GPIO call of a read is on the handle's own pin and the only
    level ever written is 0; a rate-limited call makes no GPIO call, its
    one event is the clock query. *)
Theorem dht_read_own_pin_only d w :
  exists evs,
    extends w (snd (dht_read d w)) evs /\
    forallb (own_pin_event (pin d)) evs = true /\
    (cache_hit d w = true -> evs = [EvTime (clock w (clock_reads w))]).
Proof.
  destruct (dht_read_platform d w) as (evs & He & Hf & _ & Hc).
  exists evs. split; [exact He|]. split; [exact Hf|].
  intros H. apply (Hc H).
Qed.

(** ** More on the decode loop *)

(** X6.  When bit-slot [i0] is the first to hold a zero duration, the
    decode loop returns false there: the bytes before byte [i0 / 8] are
    decoded in full, byte [i0 / 8] has received [i0 mod 8] bits, and the
    bytes after it are as they were. *)
Theorem dht_decode_stops_at_first_zero (cycles data : list Z) (i0 : nat) :
  length data = 5%nat ->
  (i0 < 40)%nat ->
  (forall k, (k < 2 * i0)%nat -> cycles !!! k <> 0) ->
  cycles !!! (2 * i0)%nat = 0 \/ cycles !!! (2 * i0 + 1)%nat = 0 ->
  exists data' : list Z,
    dht_decode cycles data = (false, data') /\
    length data' = 5%nat /\
    (forall j, (j < i0 / 8)%nat ->
       data' !!! j = push_bits cycles (data !!! j) (8 * j) 8) /\
    data' !!! (i0 / 8)%nat =
      push_bits cycles (data !!! (i0 / 8)%nat) (8 * (i0 / 8)) (i0 mod 8) /\
    (forall j, (i0 / 8 < j < 5)%nat -> data' !!! j = data !!! j).
Proof.
  intros Hlen Hi0 Hnz Hzero.
  destruct (dht_decode_from_stops cycles i0 40 0 data Hlen eq_refl)
    as (data' & Hrun & Hlen' & Hbytes); [lia | | exact Hzero |].
  { intros k Hk. apply Hnz. lia. }
  pose proof (Nat.div_mod_eq i0 8) as Hdm.
  pose proof (Nat.mod_upper_bound i0 8 ltac:(lia)) as Hr.
  exists data'. split; [exact Hrun|]. split; [exact Hlen'|].
  split; [|split].
  - intros j Hj. rewrite Hbytes by lia.
    replace (Nat.max 0 (8 * j)) with (8 * j)%nat by lia.
    replace (Nat.min i0 (8 * j + 8) - 8 * j)%nat with 8%nat by lia.
    reflexivity.
  - rewrite Hbytes by lia.
    replace (Nat.max 0 (8 * (i0 / 8))) with (8 * (i0 / 8))%nat by lia.
    replace (Nat.min i0 (8 * (i0 / 8) + 8) - 8 * (i0 / 8))%nat
      with (i0 mod 8)%nat by lia.
    reflexivity.
  - intros j Hj. rewrite Hbytes by lia.
    replace (Nat.min i0 (8 * j + 8) - Nat.max 0 (8 * j))%nat with 0%nat
      by lia.
    reflexivity.
Qed.

Lemma dht_decode_from_scale (k : Z) (cycles : list Z) :
  0 < k ->
  forall n i (data : list Z),
    (2 * (i + n) <= length cycles)%nat ->
    dht_decode_from n i (Z.mul k <$> cycles) data =
    dht_decode_from n i cycles data.
Proof.
  intros Hk. induction n as [|n IH]; intros i data Hlen; [reflexivity|].
  cbn [dht_decode_from].
  rewrite !(list_lookup_total_fmap (Z.mul k) cycles) by lia.
  set (lo := cycles !!! (2 * i)%nat). set (hi := cycles !!! (2 * i + 1)%nat).
  assert (E1 : (k * lo =? 0) = (lo =? 0))
    by (destruct (Z.eqb_spec (k * lo) 0), (Z.eqb_spec lo 0); nia).
  assert (E2 : (k * hi =? 0) = (hi =? 0))
    by (destruct (Z.eqb_spec (k * hi) 0), (Z.eqb_spec hi 0); nia).
  assert (E3 : (k * lo <? k * hi) = (lo <? hi))
    by (destruct (Z.ltb_spec (k * lo) (k * hi)), (Z.ltb_spec lo hi); nia).
  rewrite E1, E2, E3.
  destruct ((lo =? 0) || (hi =? 0)); [reflexivity|].
  cbv zeta. apply IH. lia.
Qed.

(** X7.  Decoding looks only at which phase of a bit is longer: 80
    durations all multiplied by the same positive factor decode to the same
    result, failure included. *)
Theorem dht_decode_scale_invariant (k : Z) (cycles data : list Z) :
  0 < k ->
  length cycles = 80%nat ->
  dht_decode (Z.mul k <$> cycles) data = dht_decode cycles data.
Proof.
  intros Hk Hlen. apply dht_decode_from_scale; [exact Hk | lia].
Qed.

(** Slot [i] of the pulse widths sent for a list of bits. *)
Lemma pulse_lookup (low short long : Z) : forall (bits : list bool) (i : nat),
  (i < length bits)%nat ->
  let cycles : list Z :=
    flat_map (fun b : bool => [low; if b then long else short]) bits in
  cycles !!! (2 * i)%nat = low /\
  cycles !!! (2 * i + 1)%nat = (if (bits !!! i : bool) then long else short).
Proof.
  induction bits as [|b bits IH]; intros i Hi; [cbn in Hi; lia|].
  cbv zeta. cbn [flat_map app].
  destruct i as [|i].
  - split; reflexivity.
  - replace (2 * S i)%nat with (S (S (2 * i))) by lia.
    replace (S (S (2 * i)) + 1)%nat with (S (S (2 * i + 1))) by lia.
    cbn [length] in Hi. apply (IH i). lia.
Qed.

(** Bit [8q + r] of the bits of a list of bytes. *)
Lemma byte_bits_lookup : forall (bytes : list Z) (q r : nat),
  (q < length bytes)%nat -> (r < 8)%nat ->
  flat_map byte_bits bytes !!! (8 * q + r)%nat =
  Z.testbit (bytes !!! q) (Z.of_nat (7 - r)).
Proof.
  induction bytes as [|b bytes IH]; intros q r Hq Hr; [cbn in Hq; lia|].
  cbn [flat_map].
  assert (Hlen : length (byte_bits b) = 8%nat) by reflexivity.
  destruct q as [|q].
  - rewrite lookup_total_app_l by lia.
    replace (8 * 0 + r)%nat with r by lia.
    do 8 (destruct r as [|r]; [reflexivity|]). lia.
  - rewrite lookup_total_app_r by lia.
    rewrite Hlen. replace (8 * S q + r - 8)%nat with (8 * q + r)%nat by lia.
    cbn [length] in Hq. apply IH; lia.
Qed.

Lemma flat_map_length_const {A B} (f : A -> list B) (c : nat) (l : list A) :
  (forall x, length (f x) = c) -> length (flat_map f l) = (c * length l)%nat.
Proof.
  intros Hf. induction l as [|x l IH]; cbn [flat_map length]; [lia|].
  rewrite length_app, Hf, IH. lia.
Qed.

(** X8.  Decoding inverts the sensor's encoding: from the pulse widths of
    five bytes (a fixed low phase, then a high phase longer than it for a 1
    and not longer for a 0, none of them zero) the decode loop returns
    exactly those five bytes, whatever the buffer held before. *)
Theorem dht_decode_encode (low short long : Z) (bytes data : list Z) :
  0 < short <= low -> low < long ->
  length bytes = 5%nat ->
  Forall (fun b => 0 <= b < 256) bytes ->
  length data = 5%nat ->
  dht_decode (dht_encode low short long bytes) data = (true, bytes).
Proof.
  intros Hs Hl Hlen Hbytes Hdata.
  set (bits := flat_map byte_bits bytes).
  assert (Hbits : length bits = 40%nat).
  { unfold bits. rewrite (flat_map_length_const byte_bits 8); [lia|].
    intros x. reflexivity. }
  assert (Hslot : forall i, (i < 40)%nat ->
            dht_encode low short long bytes !!! (2 * i)%nat = low /\
            dht_encode low short long bytes !!! (2 * i + 1)%nat =
              (if (bits !!! i : bool) then long else short)).
  { intros i Hi. apply (pulse_lookup low short long bits i). lia. }
  assert (Hbit : forall i, (i < 40)%nat ->
            slot_bit (dht_encode low short long bytes) i = bits !!! i).
  { intros i Hi. unfold slot_bit. destruct (Hslot i Hi) as [-> ->].
    destruct (bits !!! i : bool); [apply Z.ltb_lt | apply Z.ltb_ge]; lia. }
  destruct (dht_decode_ok (dht_encode low short long bytes) data Hdata)
    as (data' & Hrun & Hlen' & Hdec).
  { intros k Hk.
    pose proof (Nat.div_mod_eq k 2) as Hdm.
    pose proof (Nat.mod_upper_bound k 2 ltac:(lia)) as Hr.
    destruct (Hslot (k / 2)%nat ltac:(lia)) as [H0 H1].
    destruct (k mod 2)%nat as [|[|r]] eqn:E; [| |lia].
    - replace k with (2 * (k / 2))%nat by lia. rewrite H0. lia.
    - replace k with (2 * (k / 2) + 1)%nat by lia. rewrite H1.
      destruct (bits !!! (k / 2)%nat : bool); lia. }
  rewrite Hrun. f_equal.
  rewrite (list5_ext data' Hlen'), (list5_ext bytes Hlen).
  assert (Hbyte : forall j, (j < 5)%nat -> data' !!! j = bytes !!! j).
  { intros j Hj. rewrite (Hdec j Hj).
    apply byte_bits_ext.
    - apply push_bits_range_pos. lia.
    - rewrite Forall_lookup_total in Hbytes. apply Hbytes. lia.
    - intros n Hn. rewrite push_bits_testbit by exact Hn.
      replace (n <? 8)%nat with true by (symmetry; apply Nat.ltb_lt; exact Hn).
      rewrite Hbit by lia. unfold bits.
      replace (8 * j + 8 - 1 - n)%nat with (8 * j + (7 - n))%nat by lia.
      rewrite byte_bits_lookup by lia.
      f_equal. lia. }
  rewrite !Hbyte by lia. reflexivity.
Qed.

(** ** The cache, seen by a caller *)

Lemma cached_failure d w :
  last_result d = false -> cache_hit d w = true ->
  fst (fst (dht_read d w)) = false /\
  fst (fst (mgos_dht_get_temp (Some d) w)) = NAN /\
  fst (fst (mgos_dht_get_humidity (Some d) w)) = NAN.
Proof.
  intros Hres Hhit.
  rewrite mgos_dht_get_temp_eq, mgos_dht_get_humidity_eq.
  rewrite (dht_read_cached d w Hhit).
  cbv beta iota delta [fst snd]. rewrite Hres.
  split; [|split]; reflexivity.
Qed.

(** X9.  A failure is cached like a success: after a read that returned
    false, every call that falls under the rate limit returns false, and
    both queries give not-a-number, without a new attempt. *)
Theorem failed_read_is_cached d w1 w2 :
  fst (fst (dht_read d w1)) = false ->
  cache_hit (snd (fst (dht_read d w1))) w2 = true ->
  fst (fst (dht_read (snd (fst (dht_read d w1))) w2)) = false /\
  fst (fst (mgos_dht_get_temp (Some (snd (fst (dht_read d w1)))) w2)) = NAN /\
  fst (fst (mgos_dht_get_humidity (Some (snd (fst (dht_read d w1)))) w2))
    = NAN /\
  snd (dht_read (snd (fst (dht_read d w1))) w2) = snd (mg_time w2).
Proof.
  intros Hfail Hhit.
  rewrite (dht_read_result_flag d w1) in Hfail.
  set (d1 := snd (fst (dht_read d w1))) in *. clearbody d1.
  destruct (cached_failure d1 w2 Hfail Hhit) as (H1 & H2 & H3).
  split; [exact H1|]. split; [exact H2|]. split; [exact H3|].
  rewrite (dht_read_cached d1 w2 Hhit). reflexivity.
Qed.

(** A handle with two counters moved starts its attempts alike. *)
Lemma fresh_ignores_counters d w :
  cache_hit (counted_hit d) w = cache_hit d w /\
  attempt_handle (counted_hit d) w = counted_hit (attempt_handle d w) /\
  handshake_ok (counted_hit d) w = handshake_ok d w /\
  capture_world (counted_hit d) w = capture_world d w /\
  captured (counted_hit d) w = captured d w.
Proof.
  assert (Hw : handshake_world (counted_hit d) w = handshake_world d w).
  { unfold handshake_world, dht_start_signal, bind, attempt_handle,
      counted_hit.
    cbn [pin type dht_reset with_data with_result with_stats].
    reflexivity. }
  assert (Hcw : capture_world (counted_hit d) w = capture_world d w)
    by (unfold capture_world; rewrite Hw; reflexivity).
  split; [reflexivity|]. split; [reflexivity|]. split; [|split].
  - unfold handshake_ok. rewrite Hw. reflexivity.
  - exact Hcw.
  - unfold captured. rewrite Hcw. reflexivity.
Qed.

(** X10.  A rate-limited call changes nothing a later call depends on: it
    moves two counters, and any later call returns the same result, leaves
    the platform in the same state and the handle in the same state up to
    those two counters, as if the rate-limited call had not been made. *)
Theorem cached_call_is_transparent d w w2 :
  cache_hit d w = true ->
  snd (fst (dht_read d w)) = counted_hit d /\
  fst (fst (dht_read (counted_hit d) w2)) = fst (fst (dht_read d w2)) /\
  snd (dht_read (counted_hit d) w2) = snd (dht_read d w2) /\
  snd (fst (dht_read (counted_hit d) w2)) =
    counted_hit (snd (fst (dht_read d w2))).
Proof.
  intros Hhit. split.
  { rewrite (dht_read_cached d w Hhit). reflexivity. }
  destruct (fresh_ignores_counters d w2) as (Hc & Ha & Hh & Hcw & Hcap).
  destruct (cache_hit d w2) eqn:E.
  - rewrite (dht_read_cached _ w2 Hc), (dht_read_cached d w2 E).
    split; [|split]; reflexivity.
  - rewrite (dht_read_fresh _ w2 Hc), (dht_read_fresh d w2 E). cbv zeta.
    rewrite Ha, Hh, Hcw, Hcap.
    assert (Hpin : pin (counted_hit d) = pin d) by reflexivity.
    rewrite Hpin. clear Hpin.
    set (d1 := attempt_handle d w2).
    set (wc := capture_world d w2).
    set (wk := snd (dht_capture 40 (pin d) wc)).
    set (dec := dht_decode (captured d w2) zero_data).
    clearbody d1 wc wk dec.
    destruct (handshake_ok d w2); cbv beta iota delta [negb];
      [destruct (fst dec); cbv beta iota delta [negb];
       [destruct (checksum_ok (snd dec))|]|];
      cbv beta iota delta
        [fst snd counted_hit with_data with_stats with_result stats_success
         stats_cached_incr stats_read_incr stats_set_time pin type data
         last_result stats last_read_time read read_success
         read_success_cached read_success_usecs];
      (split; [|split]; reflexivity).
Qed.

(** ** Creation, statistics, and the sentinel *)

Lemma mgos_dht_create_cases calloc_ok p t w :
  mgos_dht_create calloc_ok p t w =
  if negb calloc_ok then (None, w)
  else if negb (gpio_ok w p)
       then (None, emit (EvSetMode p MGOS_GPIO_MODE_INPUT) w)
       else (if negb (pull_ok w p) then None else Some (blank_dht p t),
             emit (EvSetPull p MGOS_GPIO_PULL_UP)
                  (emit (EvSetMode p MGOS_GPIO_MODE_INPUT) w)).
Proof.
  unfold mgos_dht_create, bind.
  destruct calloc_ok; [|reflexivity].
  cbv beta iota zeta delta [negb].
  cbn [fst snd pin blank_dht mgos_gpio_set_mode mgos_gpio_set_pull].
  destruct (gpio_ok w p); [|reflexivity].
  cbn [pull_ok emit].
  destruct (pull_ok w p); reflexivity.
Qed.

Lemma count_kinds_total ks :
  (count_kind is_hit ks + count_kind is_success ks
   + count_kind is_failure ks = N.of_nat (length ks))%N.
Proof.
  induction ks as [|k ks IH]; [reflexivity|].
  rewrite !count_kind_cons. cbn [length].
  destruct k; cbn [is_hit is_success is_failure hit_incr]; lia.
Qed.

Lemma dht_read_seq_stats : forall ws d,
  (read (stats (dht_read_seq d ws)) =
     read (stats d) + N.of_nat (length ws) /\
   read_success_cached (stats (dht_read_seq d ws)) =
     read_success_cached (stats d) + count_kind is_hit (kinds_of d ws) /\
   read_success (stats (dht_read_seq d ws)) =
     read_success (stats d) + count_kind is_success (kinds_of d ws))%N.
Proof.
  induction ws as [|w ws IH]; intros d.
  - cbn [dht_read_seq kinds_of length]. unfold count_kind.
    cbn [List.filter length]. lia.
  - cbn [dht_read_seq kinds_of length]. rewrite !count_kind_cons.
    destruct (IH (snd (fst (dht_read d w)))) as (H1 & H2 & H3).
    destruct (dht_read_stats d w) as (S1 & S2 & S3 & _).
    rewrite H1, H2, H3, S1, S2, S3. lia.
Qed.

(** X11.  [mgos_dht_create] yields a handle exactly when the allocation,
    the setting of the pin to input and the setting of its pull-up all
    succeed, and these are independent: the mode is set only after a
    successful allocation, the pull-up is requested only after the mode was
    accepted, and a refused pull-up alone makes the creation fail.
    Whatever reads follow on a created handle, the snapshot
    [mgos_dht_getStats] copies out counts one attempt per call, and the
    attempts are the successes, the cache hits and the failed fresh
    attempts together; without a handle or a destination it returns false
    and copies nothing. *)
Theorem create_read_getStats calloc_ok p t w0 ws out :
  match fst (mgos_dht_create calloc_ok p t w0) with
  | Some d =>
      calloc_ok = true /\ gpio_ok w0 p = true /\ pull_ok w0 p = true /\
      d = blank_dht p t /\
      exists s,
        mgos_dht_getStats (Some (dht_read_seq d ws)) (Some out)
          = (true, Some s) /\
        (read s = N.of_nat (length ws) /\
         read s = read_success s + read_success_cached s
                  + count_kind is_failure (kinds_of d ws))%N /\
        stats_consistent s
  | None => calloc_ok = false \/ gpio_ok w0 p = false \/ pull_ok w0 p = false
  end /\
  extends w0 (snd (mgos_dht_create calloc_ok p t w0))
    (if negb calloc_ok then []
     else if negb (gpio_ok w0 p) then [EvSetMode p MGOS_GPIO_MODE_INPUT]
     else [EvSetPull p MGOS_GPIO_PULL_UP; EvSetMode p MGOS_GPIO_MODE_INPUT]) /\
  (forall d, mgos_dht_getStats (Some d) None = (false, None)) /\
  (forall o, mgos_dht_getStats None o = (false, o)).
Proof.
  split; [|split; [|split; [reflexivity | intros [o|]; reflexivity]]].
  - rewrite mgos_dht_create_cases.
    destruct calloc_ok; cbn [negb fst]; [|left; reflexivity].
    destruct (gpio_ok w0 p); cbn [negb fst]; [|right; left; reflexivity].
    destruct (pull_ok w0 p); cbn [negb fst]; [|right; right; reflexivity].
    split; [reflexivity|]. split; [reflexivity|]. split; [reflexivity|].
    split; [reflexivity|].
    exists (stats (dht_read_seq (blank_dht p t) ws)).
    split; [reflexivity|].
    destruct (dht_read_seq_stats ws (blank_dht p t)) as (H1 & H2 & H3).
    pose proof (count_kinds_total (kinds_of (blank_dht p t) ws)) as Ht.
    rewrite kinds_of_length in Ht.
    cbn [blank_dht stats zero_stats read read_success read_success_cached]
      in H1, H2, H3.
    unfold stats_consistent. rewrite H1, H2, H3. lia.
  - rewrite mgos_dht_create_cases. unfold extends.
    destruct calloc_ok; cbn [negb snd]; [|reflexivity].
    destruct (gpio_ok w0 p); cbn [negb snd]; reflexivity.
Qed.

Lemma f64_sub_zero x : f64_sub x (S754_zero false) = x.
Proof. destruct x as [[|]|[|]| |s m e]; reflexivity. Qed.

(** X12.  A handle fresh from [mgos_dht_create] has timestamp 0, so its
    first read is rate-limited exactly when the clock reads less than 2:
    then no attempt is made on the bus and the read reports failure,
    counted as a cache hit. *)
Theorem new_handle_first_read calloc_ok p t w0 d w :
  fst (mgos_dht_create calloc_ok p t w0) = Some d ->
  cache_hit d w =
    SFltb (clock w (clock_reads w)) (f64_of_int MGOS_DHT_READ_DELAY) /\
  (SFltb (clock w (clock_reads w)) (f64_of_int MGOS_DHT_READ_DELAY) = true ->
   dht_read d w = ((false, counted_hit d), snd (mg_time w)) /\
   fst (fst (mgos_dht_get_temp (Some d) w)) = NAN /\
   fst (fst (mgos_dht_get_humidity (Some d) w)) = NAN).
Proof.
  rewrite mgos_dht_create_cases.
  destruct calloc_ok; cbn [negb fst]; [|discriminate].
  destruct (gpio_ok w0 p); cbn [negb fst]; [|discriminate].
  destruct (pull_ok w0 p); cbn [negb fst]; [|discriminate].
  intros [= <-].
  assert (Hc : cache_hit (blank_dht p t) w =
               SFltb (clock w (clock_reads w))
                     (f64_of_int MGOS_DHT_READ_DELAY)).
  { unfold cache_hit, rate_limited.
    cbn [blank_dht stats zero_stats last_read_time].
    rewrite f64_sub_zero. reflexivity. }
  split; [exact Hc|].
  intros Hlt. rewrite <- Hc in Hlt.
  destruct (cached_failure (blank_dht p t) w eq_refl Hlt) as (_ & H2 & H3).
  split; [|split; assumption].
  rewrite (dht_read_cached _ w Hlt). reflexivity.
Qed.

Lemma reading_is_finite q d :
  dht_wf d -> exists v, sf_value (reading_of q d) = Some v.
Proof.
  intros Hwf.
  pose proof (wf_byte d 0 Hwf ltac:(lia)) as H0.
  pose proof (wf_byte d 1 Hwf ltac:(lia)) as H1.
  pose proof (wf_byte d 2 Hwf ltac:(lia)) as H2.
  pose proof (wf_byte d 3 Hwf ltac:(lia)) as H3.
  destruct (is_DHT11 (type d)) eqn:Et.
  - destruct q; cbn [reading_of]; unfold temp_of, humidity_of; rewrite Et.
    + destruct (int_value _ H2) as (v & Hv & _). exists v. exact Hv.
    + destruct (int_value _ H0) as (v & Hv & _). exists v. exact Hv.
  - destruct q; cbn [reading_of].
    + rewrite (temp_of_probe d Et).
      pose proof (all_byte_pairs_spec _ temp_check_all _ _ H2 H3) as Hc.
      unfold temp_check in Hc. cbv zeta in Hc.
      apply andb_prop in Hc as [Hc _]. apply andb_prop in Hc as [_ Hn].
      unfold near32 in Hn.
      destruct (sf_value _) as [v|]; [exists v; reflexivity | discriminate].
    + rewrite (humidity_of_probe d Et).
      pose proof (all_byte_pairs_spec _ humidity_check_all _ _ H0 H1) as Hc.
      unfold humidity_check in Hc. cbv zeta in Hc.
      apply andb_prop in Hc as [_ Hn].
      unfold near32 in Hn.
      destruct (sf_value _) as [v|]; [exists v; reflexivity | discriminate].
Qed.

(** X13.  Not-a-number is a faithful sentinel: on a handle whose buffer is
    five bytes, a query returns NaN exactly when the read behind it
    failed, and a finite number otherwise; on a NULL handle it returns
    NaN and calls nothing. *)
Theorem nan_iff_read_failed (q : quantity) d w :
  dht_wf d ->
  (fst (fst (mgos_dht_get q (Some d) w)) = NAN <->
   fst (fst (dht_read d w)) = false) /\
  (fst (fst (dht_read d w)) = true ->
   exists v, sf_value (fst (fst (mgos_dht_get q (Some d) w))) = Some v) /\
  mgos_dht_get q None w = ((NAN, None), w).
Proof.
  intros Hwf.
  rewrite (mgos_dht_get_eq q d w).
  cbv beta iota delta [fst snd].
  pose proof (dht_read_keeps d w) as (_ & _ & Hk). specialize (Hk Hwf).
  set (r := dht_read d w) in *. clearbody r.
  destruct r as [[ok d'] w']. cbv beta iota delta [fst snd] in Hk.
  destruct (reading_is_finite q d' Hk) as [v Hv].
  split; [|split].
  - destruct ok.
    + split; [|discriminate]. intros Hn. rewrite Hn in Hv. discriminate Hv.
    + split; reflexivity.
  - intros ->. exists v. exact Hv.
  - destruct q; reflexivity.
Qed.

(** ** The further properties on the test benches *)

Lemma dht_wait_measures_witness :
  0 <= 90 < 2 ^ 32 /\
  (2 <= Z.to_nat 90)%nat /\
  (forall i, (i < 2)%nat ->
     Z.b2z (pin_level rises_after_two 4 (polls rises_after_two + i)) <> 1) /\
  (Z.b2z (pin_level rises_after_two 4 (polls rises_after_two + 2)) = 1 ->
   fst (dht_wait 4 1 90 rises_after_two) = Z.of_nat 2 /\
   polls (snd (dht_wait 4 1 90 rises_after_two))
     = (polls rises_after_two + 2 + 1)%nat) /\
  (2%nat = Z.to_nat 90 ->
   Z.b2z (pin_level rises_after_two 4 (polls rises_after_two + 2)) <> 1 ->
   fst (dht_wait 4 1 90 rises_after_two) = 0 /\
   polls (snd (dht_wait 4 1 90 rises_after_two))
     = (polls rises_after_two + Z.to_nat 90 + 1)%nat).
Proof.
  assert (H1 : 0 <= 90 < 2 ^ 32) by lia.
  assert (H2 : (2 <= Z.to_nat 90)%nat) by lia.
  assert (H3 : forall i, (i < 2)%nat ->
            Z.b2z (pin_level rises_after_two 4 (polls rises_after_two + i))
            <> 1).
  { intros i Hi. destruct i as [|[|i]]; [vm_compute; lia | vm_compute; lia|].
    lia. }
  split; [exact H1|]. split; [exact H2|]. split; [exact H3|].
  exact (dht_wait_measures 4 1 90 rises_after_two 2 H1 H2 H3).
Defined.

Lemma dht_decode_stops_at_first_zero_witness :
  length zero_data = 5%nat /\
  (39 < 40)%nat /\
  (forall k, (k < 2 * 39)%nat -> cycles_late_timeout !!! k <> 0) /\
  (cycles_late_timeout !!! (2 * 39)%nat = 0 \/
   cycles_late_timeout !!! (2 * 39 + 1)%nat = 0) /\
  exists data' : list Z,
    dht_decode cycles_late_timeout zero_data = (false, data') /\
    length data' = 5%nat /\
    (forall j, (j < 39 / 8)%nat ->
       data' !!! j = push_bits cycles_late_timeout (zero_data !!! j) (8 * j) 8)
    /\
    data' !!! (39 / 8)%nat =
      push_bits cycles_late_timeout (zero_data !!! (39 / 8)%nat)
                (8 * (39 / 8)) (39 mod 8) /\
    (forall j, (39 / 8 < j < 5)%nat -> data' !!! j = zero_data !!! j).
Proof.
  assert (H1 : length zero_data = 5%nat) by reflexivity.
  assert (H2 : (39 < 40)%nat) by lia.
  assert (H3 : forall k, (k < 2 * 39)%nat -> cycles_late_timeout !!! k <> 0).
  { intros k Hk.
    do 78 (destruct k as [|k]; [vm_compute; discriminate|]). lia. }
  assert (H4 : cycles_late_timeout !!! (2 * 39)%nat = 0 \/
               cycles_late_timeout !!! (2 * 39 + 1)%nat = 0)
    by (right; vm_compute; reflexivity).
  split; [exact H1|]. split; [exact H2|]. split; [exact H3|].
  split; [exact H4|].
  exact (dht_decode_stops_at_first_zero cycles_late_timeout zero_data 39
           H1 H2 H3 H4).
Defined.

Lemma dht_decode_scale_invariant_witness :
  0 < 3 /\
  length cycles_ones = 80%nat /\
  dht_decode (Z.mul 3 <$> cycles_ones) zero_data =
  dht_decode cycles_ones zero_data.
Proof.
  assert (H1 : 0 < 3) by lia.
  assert (H2 : length cycles_ones = 80%nat) by reflexivity.
  split; [exact H1|]. split; [exact H2|].
  exact (dht_decode_scale_invariant 3 cycles_ones zero_data H1 H2).
Defined.

Lemma dht_decode_encode_witness :
  0 < 30 <= 50 /\ 50 < 70 /\
  length dht22_bytes = 5%nat /\
  Forall (fun b => 0 <= b < 256) dht22_bytes /\
  length zero_data = 5%nat /\
  dht_decode (dht_encode 50 30 70 dht22_bytes) zero_data = (true, dht22_bytes).
Proof.
  assert (H1 : 0 < 30 <= 50) by lia.
  assert (H2 : 50 < 70) by lia.
  assert (H3 : length dht22_bytes = 5%nat) by reflexivity.
  assert (H4 : Forall (fun b => 0 <= b < 256) dht22_bytes)
    by (unfold dht22_bytes; repeat constructor; lia).
  assert (H5 : length zero_data = 5%nat) by reflexivity.
  split; [exact H1|]. split; [exact H2|]. split; [exact H3|].
  split; [exact H4|]. split; [exact H5|].
  exact (dht_decode_encode 50 30 70 dht22_bytes zero_data H1 H2 H3 H4 H5).
Defined.

Lemma failed_read_is_cached_witness :
  fst (fst (dht_read used_dht22 dead_line)) = false /\
  cache_hit (snd (fst (dht_read used_dht22 dead_line))) a_second_later
    = true /\
  fst (fst (dht_read (snd (fst (dht_read used_dht22 dead_line)))
              a_second_later)) = false /\
  fst (fst (mgos_dht_get_temp
              (Some (snd (fst (dht_read used_dht22 dead_line))))
              a_second_later)) = NAN /\
  fst (fst (mgos_dht_get_humidity
              (Some (snd (fst (dht_read used_dht22 dead_line))))
              a_second_later)) = NAN /\
  snd (dht_read (snd (fst (dht_read used_dht22 dead_line))) a_second_later)
    = snd (mg_time a_second_later).
Proof.
  assert (H1 : fst (fst (dht_read used_dht22 dead_line)) = false)
    by (vm_compute; reflexivity).
  assert (H2 : cache_hit (snd (fst (dht_read used_dht22 dead_line)))
                 a_second_later = true)
    by (vm_compute; reflexivity).
  split; [exact H1|]. split; [exact H2|].
  exact (failed_read_is_cached used_dht22 dead_line a_second_later H1 H2).
Defined.

Lemma cached_call_is_transparent_witness :
  cache_hit used_dht22 eleventh_second = true /\
  snd (fst (dht_read used_dht22 eleventh_second)) = counted_hit used_dht22 /\
  fst (fst (dht_read (counted_hit used_dht22) dead_line))
    = fst (fst (dht_read used_dht22 dead_line)) /\
  snd (dht_read (counted_hit used_dht22) dead_line)
    = snd (dht_read used_dht22 dead_line) /\
  snd (fst (dht_read (counted_hit used_dht22) dead_line)) =
    counted_hit (snd (fst (dht_read used_dht22 dead_line))).
Proof.
  assert (H1 : cache_hit used_dht22 eleventh_second = true)
    by (vm_compute; reflexivity).
  split; [exact H1|].
  exact (cached_call_is_transparent used_dht22 eleventh_second dead_line H1).
Defined.

Lemma new_handle_first_read_witness :
  fst (mgos_dht_create true 4 DHT22 just_booted) = Some new_dht22 /\
  cache_hit new_dht22 just_booted =
    SFltb (clock just_booted (clock_reads just_booted))
          (f64_of_int MGOS_DHT_READ_DELAY) /\
  (SFltb (clock just_booted (clock_reads just_booted))
         (f64_of_int MGOS_DHT_READ_DELAY) = true ->
   dht_read new_dht22 just_booted
     = ((false, counted_hit new_dht22), snd (mg_time just_booted)) /\
   fst (fst (mgos_dht_get_temp (Some new_dht22) just_booted)) = NAN /\
   fst (fst (mgos_dht_get_humidity (Some new_dht22) just_booted)) = NAN).
Proof.
  assert (H1 : fst (mgos_dht_create true 4 DHT22 just_booted)
               = Some new_dht22)
    by (vm_compute; reflexivity).
  split; [exact H1|].
  exact (new_handle_first_read true 4 DHT22 just_booted new_dht22
           just_booted H1).
Defined.

Lemma nan_iff_read_failed_witness :
  dht_wf new_dht22 /\
  (fst (fst (mgos_dht_get Temperature (Some new_dht22)
               (answering dht22_bytes))) = NAN <->
   fst (fst (dht_read new_dht22 (answering dht22_bytes))) = false) /\
  (fst (fst (dht_read new_dht22 (answering dht22_bytes))) = true ->
   exists v,
     sf_value (fst (fst (mgos_dht_get Temperature (Some new_dht22)
                           (answering dht22_bytes)))) = Some v) /\
  mgos_dht_get Temperature None (answering dht22_bytes)
    = ((NAN, None), answering dht22_bytes).
Proof.
  assert (H1 : dht_wf new_dht22)
    by (split; [reflexivity | repeat constructor; lia]).
  split; [exact H1|].
  exact (nan_iff_read_failed Temperature new_dht22 (answering dht22_bytes) H1).
Defined.

(** ** What every handle keeps *)

Lemma dht_read_validated d w :
  validated d -> validated (snd (fst (dht_read d w))).
Proof.
  unfold validated. intros Hv.
  destruct (cache_hit d w) eqn:Hc.
  - rewrite (dht_read_cached d w Hc).
    cbv beta iota delta [fst snd with_stats last_result data]. exact Hv.
  - rewrite (dht_read_fresh d w Hc). cbv zeta.
    set (d1 := attempt_handle d w).
    assert (Hd1 : last_result d1 = false) by reflexivity.
    set (dec := dht_decode (captured d w) zero_data).
    clearbody d1 dec.
    destruct (handshake_ok d w); cbv beta iota delta [negb];
      [destruct (fst dec); cbv beta iota delta [negb];
       [destruct (checksum_ok (snd dec)) eqn:Esum|]|];
      cbv beta iota delta [fst snd with_stats with_data with_result
                           last_result data];
      intros H.
    + exact Esum.
    + unfold last_result in Hd1. rewrite Hd1 in H. discriminate H.
    + unfold last_result in Hd1. rewrite Hd1 in H. discriminate H.
    + unfold last_result in Hd1. rewrite Hd1 in H. discriminate H.
Qed.

Lemma dht_read_seq_invariants : forall ws d,
  pin (dht_read_seq d ws) = pin d /\
  type (dht_read_seq d ws) = type d /\
  (dht_wf d -> dht_wf (dht_read_seq d ws)) /\
  (validated d -> validated (dht_read_seq d ws)).
Proof.
  induction ws as [|w ws IH]; intros d; cbn [dht_read_seq].
  - split; [reflexivity|]. split; [reflexivity|].
    split; intros H0; exact H0.
  - destruct (IH (snd (fst (dht_read d w)))) as (Hp & Ht & Hwf & Hval).
    destruct (dht_read_keeps d w) as (Kp & Kt & Kwf).
    rewrite Hp, Ht, Kp, Kt.
    split; [reflexivity|]. split; [reflexivity|]. split.
    + intros H. apply Hwf, Kwf, H.
    + intros H. apply Hval, dht_read_validated, H.
Qed.

(** X14.  No sequence of reads changes the pin or the variant of a
    handle, and the buffer stays five bytes, each in 0..255. *)
Theorem dht_read_seq_keeps_handle d ws :
  dht_wf d ->
  pin (dht_read_seq d ws) = pin d /\
  type (dht_read_seq d ws) = type d /\
  dht_wf (dht_read_seq d ws).
Proof.
  intros Hwf.
  destruct (dht_read_seq_invariants ws d) as (Hp & Ht & Hk & _).
  split; [exact Hp|]. split; [exact Ht|]. exact (Hk Hwf).
Qed.

(** X15.  Starting from a handle whose flag, if set, goes with a buffer
    that passes the checksum (a new handle, whose flag is clear, is one),
    whenever a read returns true, fresh or served from the cache after any
    number of earlier reads, the buffer the conversions then use passes
    the checksum. *)
Theorem true_reads_are_checksummed d ws w :
  validated d ->
  fst (fst (dht_read (dht_read_seq d ws) w)) = true ->
  checksum_ok (data (snd (fst (dht_read (dht_read_seq d ws) w)))) = true.
Proof.
  intros Hv Hok.
  destruct (dht_read_seq_invariants ws d) as (_ & _ & _ & Hk).
  pose proof (dht_read_validated _ w (Hk Hv)) as Hv'.
  apply Hv'. rewrite <- (dht_read_result_flag (dht_read_seq d ws) w).
  exact Hok.
Qed.

Lemma dht_read_seq_keeps_handle_witness :
  dht_wf new_dht22 /\
  pin (dht_read_seq new_dht22 [answering dht22_bytes; dead_line])
    = pin new_dht22 /\
  type (dht_read_seq new_dht22 [answering dht22_bytes; dead_line])
    = type new_dht22 /\
  dht_wf (dht_read_seq new_dht22 [answering dht22_bytes; dead_line]).
Proof.
  assert (H1 : dht_wf new_dht22)
    by (split; [reflexivity | repeat constructor; lia]).
  split; [exact H1|].
  exact (dht_read_seq_keeps_handle new_dht22
           [answering dht22_bytes; dead_line] H1).
Defined.

Lemma true_reads_are_checksummed_witness :
  validated new_dht22 /\
  fst (fst (dht_read (dht_read_seq new_dht22 [answering dht22_bytes])
              eleventh_second)) = true /\
  checksum_ok
    (data (snd (fst (dht_read
                       (dht_read_seq new_dht22 [answering dht22_bytes])
                       eleventh_second)))) = true.
Proof.
  assert (H1 : validated new_dht22) by (intros H; discriminate H).
  assert (H2 : fst (fst (dht_read
                           (dht_read_seq new_dht22 [answering dht22_bytes])
                           eleventh_second)) = true)
    by (vm_compute; reflexivity).
  split; [exact H1|]. split; [exact H2|].
  exact (true_reads_are_checksummed new_dht22 [answering dht22_bytes]
           eleventh_second H1 H2).
Defined.

(** ** The acknowledgment the handshake accepts *)

Lemma b2z_not_1 (v : bool) : Z.b2z v <> 1 <-> v = false.
Proof. destruct v; cbn; split; intros H; try reflexivity; try lia; discriminate. Qed.

Lemma b2z_not_0 (v : bool) : Z.b2z v <> 0 <-> v = true.
Proof. destruct v; cbn; split; intros H; try reflexivity; try lia; discriminate. Qed.

(** A wait that returns a nonzero duration saw the other level for that
    many polls and then the awaited one. *)
Lemma dht_wait_nonzero p lvl usecs w :
  0 <= usecs < 2 ^ 32 ->
  fst (dht_wait p lvl usecs w) <> 0 <->
  exists k : nat,
    (1 <= k <= Z.to_nat usecs)%nat /\
    (forall i, (i < k)%nat -> Z.b2z (pin_level w p (polls w + i)) <> lvl) /\
    Z.b2z (pin_level w p (polls w + k)) = lvl /\
    fst (dht_wait p lvl usecs w) = Z.of_nat k /\
    polls (snd (dht_wait p lvl usecs w)) = (polls w + k + 1)%nat.
Proof.
  intros Hu.
  destruct (dht_wait_result p lvl usecs w Hu)
    as [(k & Hk & Hb & Hat & Hr & Hp)|(Hall & Hr & Hp)].
  - split.
    + intros Hne. exists k. repeat split; try assumption; lia.
    + intros (k' & Hk' & _ & _ & Hr' & _). rewrite Hr'. lia.
  - split.
    + intros Hne. destruct (Hne Hr).
    + intros (k' & Hk' & _ & Hat' & _). exfalso.
      apply (Hall k'); [lia | exact Hat'].
Qed.

Lemma dht_handshake_ok_iff p w :
  fst (dht_handshake p w) = true <->
  fst (dht_wait p 1 90 w) <> 0 /\
  fst (dht_wait p 0 90 (snd (dht_wait p 1 90 w))) <> 0.
Proof.
  unfold dht_handshake, bind. cbv zeta.
  set (w1 := snd (dht_wait p 1 90 w)).
  set (r1 := fst (dht_wait p 1 90 w)).
  destruct (Z.eqb_spec r1 0) as [E1|E1].
  - split; [discriminate | intros [H _]; destruct (H E1)].
  - cbv beta.
    set (r2 := fst (dht_wait p 0 90 w1)).
    clearbody r1 r2 w1.
    unfold ret. cbv beta iota delta [fst].
    destruct (Z.eqb_spec r2 0) as [E2|E2]; cbn [negb].
    + split; [discriminate | intros [_ H]; destruct (H E2)].
    + split; [intros _; split; assumption | reflexivity].
Qed.

(** X16.  The handshake succeeds exactly when the polls show the line low
    for [a] polls, [1 <= a <= 90], then high for [b + 1] polls,
    [1 <= b <= 90], then low: a line that is already high at the first
    poll, or high for one poll only, is refused like one that never
    answers. *)
Theorem dht_handshake_accepts p w :
  fst (dht_handshake p w) = true <->
  exists a b : nat,
    (1 <= a <= 90)%nat /\ (1 <= b <= 90)%nat /\
    (forall i, (i < a)%nat -> pin_level w p (polls w + i) = false) /\
    (forall i, (i <= b)%nat -> pin_level w p (polls w + a + i) = true) /\
    pin_level w p (polls w + a + b + 1) = false.
Proof.
  rewrite dht_handshake_ok_iff.
  pose proof (dht_wait_nonzero p 1 90 w ltac:(lia)) as H1.
  pose proof (dht_wait_nonzero p 0 90 (snd (dht_wait p 1 90 w)) ltac:(lia))
    as H2.
  destruct (dht_wait_polling p 1 90 w ltac:(lia)) as [_ (Hpl & _)].
  pose proof (dht_wait_result p 1 90 w ltac:(lia)) as R1.
  pose proof (dht_wait_result p 0 90 (snd (dht_wait p 1 90 w)) ltac:(lia))
    as R2.
  cbv zeta in R1, R2.
  set (w1 := snd (dht_wait p 1 90 w)) in *.
  set (r1 := fst (dht_wait p 1 90 w)) in *.
  set (r2 := fst (dht_wait p 0 90 w1)) in *.
  set (w2 := snd (dht_wait p 0 90 w1)) in *.
  clearbody r1 r2 w2.
  change (Z.to_nat 90) with 90%nat in *.
  split.
  - intros [E1 E2].
    apply H1 in E1 as (a & Ha & Hlow & Hhigh & _ & Hp1).
    apply H2 in E2 as (b & Hb & Hstay & Hfall & _ & _).
    rewrite Hpl, Hp1 in *.
    exists a, b. split; [lia|]. split; [lia|]. split; [|split].
    + intros i Hi. apply b2z_not_1, Hlow, Hi.
    + intros i Hi. destruct i as [|i].
      * rewrite Nat.add_0_r. destruct (pin_level w p (polls w + a));
          [reflexivity | discriminate Hhigh].
      * replace (polls w + a + S i)%nat with (polls w + a + 1 + i)%nat by lia.
        apply b2z_not_0, Hstay. lia.
    + replace (polls w + a + b + 1)%nat with (polls w + a + 1 + b)%nat by lia.
      destruct (pin_level w p (polls w + a + 1 + b));
        [discriminate Hfall | reflexivity].
  - intros (a & b & Ha & Hb & Hlow & Hhigh & Hfall).
    assert (E1 : r1 <> 0).
    { apply H1. destruct R1
        as [(k & Hk & Hbk & Hat & Hr & Hp)|(Hall & _)].
      - exists k.
        assert (k = a).
        { destruct (Nat.lt_trichotomy k a) as [Hlt|[Heq|Hgt]]; [|exact Heq|].
          - rewrite (Hlow k Hlt) in Hat. discriminate Hat.
          - exfalso. apply (Hbk a Hgt).
            pose proof (Hhigh 0%nat ltac:(lia)) as H0.
            rewrite Nat.add_0_r in H0. rewrite H0. reflexivity. }
        subst k. repeat split; try assumption; lia.
      - exfalso. apply (Hall a); [lia|].
        pose proof (Hhigh 0%nat ltac:(lia)) as H0.
        rewrite Nat.add_0_r in H0. rewrite H0. reflexivity. }
    pose proof E1 as E1'.
    apply H1 in E1' as (a' & Ha' & Hlow' & Hhigh' & _ & Hp1).
    assert (a' = a).
    { destruct (Nat.lt_trichotomy a' a) as [Hlt|[Heq|Hgt]]; [|exact Heq|].
      - rewrite (Hlow a' Hlt) in Hhigh'. discriminate Hhigh'.
      - exfalso. apply (Hlow' a Hgt).
        pose proof (Hhigh 0%nat ltac:(lia)) as H0.
        rewrite Nat.add_0_r in H0. rewrite H0. reflexivity. }
    subst a'.
    assert (E2 : r2 <> 0).
    { apply H2. clear H1 H2.
      destruct R2 as [(k & Hk & Hbk & Hat & Hr & Hp)|(Hall & _)];
        rewrite Hpl, Hp1 in *.
      - assert (k = b).
        { destruct (Nat.lt_trichotomy k b) as [Hlt|[Heq|Hgt]]; [|exact Heq|].
          - pose proof (Hhigh (S k) ltac:(lia)) as Hk1.
            replace (polls w + a + S k)%nat with (polls w + a + 1 + k)%nat
              in Hk1 by lia.
            rewrite Hk1 in Hat. discriminate Hat.
          - exfalso. apply (Hbk b Hgt).
            replace (polls w + a + 1 + b)%nat with (polls w + a + b + 1)%nat
              by lia.
            rewrite Hfall. reflexivity. }
        subst k. exists b. repeat split; try assumption; lia.
      - exfalso. apply (Hall b); [lia|].
        replace (polls w + a + 1 + b)%nat with (polls w + a + b + 1)%nat
          by lia.
        rewrite Hfall. reflexivity. }
    split; assumption.
Qed.
